(** * Blue-chip dividend stock screener: metric deriver, rule evaluator
      and watchlist files

    A shallow embedding of [screener.py].  Python floats are IEEE-754
    binary64 numbers and are modelled by Rocq's primitive floats, so the
    comparisons, the arithmetic and the truthiness test [if x:] behave as
    they do in the program, signed zeros and NaN included.  Optional
    metrics ([Optional[float]]) are [option float]; the provider's [info]
    dictionary is a record of its two texts and a finite map of its
    numbers, the statement table a finite map keyed by strings; the file
    system of the watchlist functions is a finite map from paths to
    contents.  A text is a [string] whose characters are code points
    below 256.  Three library functions are taken as given and are
    parameters of what uses them: the float power [**], the sum of a
    pandas bucket and [str.upper]. *)

From Stdlib Require Import ZArith List String Ascii Floats Bool Lia.
From Stdlib Require Import DecimalString.
From stdpp Require Import gmap strings list sorting.

Set Warnings "-inexact-float".
Local Open Scope string_scope.
Local Open Scope Z_scope.

(** ** Python values used by the program *)

(** [x in s] for strings: [sub] occurs somewhere in [s]. *)
Fixpoint startswith (s pre : string) : bool :=
  match pre, s with
  | EmptyString, _ => true
  | String p pre', String c s' => Ascii.eqb p c && startswith s' pre'
  | String _ _, EmptyString => false
  end.

Fixpoint contains (sub s : string) : bool :=
  startswith s sub ||
  match s with
  | EmptyString => false
  | String _ s' => contains sub s'
  end.

(** Truthiness of an [Optional[float]]: [None], [0.0] and [-0.0] are
    falsy, every other float (NaN too) is truthy.  The result carries the
    value the guarded branch then reads. *)
Definition truthy (o : option float) : option float :=
  match o with
  | Some x => if PrimFloat.eqb x 0 then None else Some x
  | None => None
  end.

(** [o and p(o)] for an optional metric. *)
Definition truthy_and (o : option float) (p : float -> bool) : bool :=
  match truthy o with
  | Some x => p x
  | None => false
  end.

(** Python's comparison operators on floats. *)
Definition gt (x y : float) : bool := PrimFloat.ltb y x.
Definition lt (x y : float) : bool := PrimFloat.ltb x y.
Definition ge (x y : float) : bool := PrimFloat.leb y x.
Definition le (x y : float) : bool := PrimFloat.leb x y.

(** *** Fixed-point formatting, [f"{x:.{d}f}"]

    The exact binary value is rounded to [d] decimals, ties to even. *)
Definition string_of_N (n : Z) : string :=
  NilZero.string_of_uint (N.to_uint (Z.to_N n)).

Fixpoint zeros (n : nat) : string :=
  match n with
  | O => ""
  | S n' => String "0" (zeros n')
  end.

Definition zfill (d : nat) (s : string) : string :=
  zeros (d - String.length s) ++ s.

Definition fixed_digits (d : nat) (n : Z) : string :=
  let unit := 10 ^ Z.of_nat d in
  string_of_N (n / unit) ++
  match d with
  | O => ""
  | _ => "." ++ zfill d (string_of_N (n mod unit))
  end.

Definition round_half_even (num den : Z) : Z :=
  let q := num / den in
  let r := num mod den in
  if (den <? 2 * r) || ((den =? 2 * r) && Z.odd q) then q + 1 else q.

Definition sign_prefix (s : bool) : string := if s then "-" else "".

Definition format_fixed (d : nat) (x : float) : string :=
  match Prim2SF x with
  | S754_nan => "nan"
  | S754_infinity s => sign_prefix s ++ "inf"
  | S754_zero s => sign_prefix s ++ fixed_digits d 0
  | S754_finite s m e =>
      let num := Zpos m * 10 ^ Z.of_nat d in
      sign_prefix s ++
      fixed_digits d
        (if 0 <=? e then num * 2 ^ e else round_half_even num (2 ^ (- e)))
  end.

(** ** Data model *)

Record ScreeningCriteria := {
  min_dividend_yield : float;
  max_dividend_yield : float;
  min_dividend_years : Z;
  max_payout_ratio : float;
  max_payout_ratio_reit : float;
  min_interest_coverage : float;
  min_interest_coverage_reit : float;
  max_debt_to_equity : float;
  min_roic : float;
  min_roe : float;
  max_pe_ratio : float;
  min_expected_return : float
}.

(** The dataclass defaults. *)
Definition default_criteria : ScreeningCriteria := {|
  min_dividend_yield := 1.5;
  max_dividend_yield := 8.0;
  min_dividend_years := 5;
  max_payout_ratio := 50.0;
  max_payout_ratio_reit := 85.0;
  min_interest_coverage := 10.0;
  min_interest_coverage_reit := 4.0;
  max_debt_to_equity := 1.0;
  min_roic := 12.0;
  min_roe := 15.0;
  max_pe_ratio := 25.0;
  min_expected_return := 8.0
|}.

Record StockAnalysis := {
  ticker : string;
  name : string;
  sector : string;
  dividend_yield : option float;
  payout_ratio : option float;
  dividend_growth_5yr : option float;
  interest_coverage : option float;
  debt_to_equity : option float;
  current_ratio : option float;
  roic : option float;
  roe : option float;
  profit_margin : option float;
  pe_ratio : option float;
  forward_pe : option float;
  price_to_book : option float;
  expected_return : option float;
  passes_screen : bool;
  score : Z;
  flags : list string
}.

(** [StockAnalysis(ticker=.., name=.., sector=..)]: every metric [None],
    [passes_screen = False], [score = 0], [flags = []]. *)
Definition new_analysis (t n s : string) : StockAnalysis := {|
  ticker := t; name := n; sector := s;
  dividend_yield := None; payout_ratio := None; dividend_growth_5yr := None;
  interest_coverage := None; debt_to_equity := None; current_ratio := None;
  roic := None; roe := None; profit_margin := None;
  pe_ratio := None; forward_pe := None; price_to_book := None;
  expected_return := None;
  passes_screen := false; score := 0; flags := []
|}.

(** ** Rule Evaluator: [screen_stock] *)

(** The two locals [score] and [flags] that the checks update in turn. *)
Record Tally := { t_score : Z; t_flags : list string }.

Definition add_score (n : Z) (t : Tally) : Tally :=
  {| t_score := t_score t + n; t_flags := t_flags t |}.

Definition append_flag (f : string) (t : Tally) : Tally :=
  {| t_score := t_score t; t_flags := (t_flags t ++ [f])%list |}.

Definition is_high_leverage_sector (sec : string) : bool :=
  let is_reit := contains "REIT" sec || contains "Real Estate" sec in
  let is_utility := contains "Utilities" sec in
  is_reit || is_utility.

Section Checks.
Variable analysis : StockAnalysis.
Variable criteria : ScreeningCriteria.

Let high_leverage_sector := is_high_leverage_sector (sector analysis).

(** --- Dividend Yield Check --- *)
Definition check_dividend_yield (t : Tally) : Tally :=
  match truthy (dividend_yield analysis) with
  | Some y =>
      if lt y (min_dividend_yield criteria) then
        append_flag ("Low dividend yield: " ++ format_fixed 2 y ++ "%") t
      else if gt y (max_dividend_yield criteria) then
        append_flag ("YIELD TRAP WARNING: " ++ format_fixed 2 y
                     ++ "% (unusually high)") t
      else add_score 2 t
  | None => append_flag "No dividend data" t
  end.

(** --- Payout Ratio Check --- *)
Definition check_payout_ratio (t : Tally) : Tally :=
  match truthy (payout_ratio analysis) with
  | Some p =>
      let max_payout :=
        if high_leverage_sector then max_payout_ratio_reit criteria
        else max_payout_ratio criteria in
      if gt p max_payout then
        append_flag ("High payout ratio: " ++ format_fixed 1 p ++ "%") t
      else if gt p 90 then
        append_flag ("DIVIDEND AT RISK: Payout ratio "
                     ++ format_fixed 1 p ++ "%") t
      else add_score 2 t
  | None => t
  end.

(** --- Dividend Growth Check --- *)
Definition check_dividend_growth (t : Tally) : Tally :=
  match truthy (dividend_growth_5yr analysis) with
  | Some g =>
      if gt g 5 then
        let t := add_score 2 t in
        if gt g 10 then add_score 1 t else t
      else if lt g 0 then
        append_flag ("Declining dividends: " ++ format_fixed 1 g ++ "%") t
      else t
  | None => t
  end.

(** --- Interest Coverage Check --- *)
Definition check_interest_coverage (t : Tally) : Tally :=
  match truthy (interest_coverage analysis) with
  | Some ic =>
      let min_coverage :=
        if high_leverage_sector then min_interest_coverage_reit criteria
        else min_interest_coverage criteria in
      if lt ic min_coverage then
        append_flag ("Low interest coverage: " ++ format_fixed 1 ic ++ "x") t
      else add_score 2 t
  | None => t
  end.

(** --- Debt-to-Equity Check --- *)
Definition check_debt_to_equity (t : Tally) : Tally :=
  match truthy (debt_to_equity analysis) with
  | Some de =>
      if negb high_leverage_sector && gt de (max_debt_to_equity criteria) then
        append_flag ("High debt/equity: " ++ format_fixed 2 de) t
      else if lt de 0.5 then add_score 2 t
      else add_score 1 t
  | None => t
  end.

(** --- ROIC/ROE Check --- *)
Definition check_roic_roe (t : Tally) : Tally :=
  if truthy_and (roic analysis) (fun r => ge r (min_roic criteria)) then
    add_score 2 t
  else if truthy_and (roe analysis) (fun r => ge r (min_roe criteria)) then
    add_score 1 t
  else if truthy_and (roe analysis) (fun r => lt r 10) then
    append_flag ("Low return on equity: "
                 ++ format_fixed 1 (default 0%float (roe analysis)) ++ "%") t
  else t.

(** --- Valuation Check --- *)
Definition check_valuation (t : Tally) : Tally :=
  match truthy (pe_ratio analysis) with
  | Some pe =>
      if gt pe (max_pe_ratio criteria) then
        append_flag ("High P/E ratio: " ++ format_fixed 1 pe) t
      else if lt pe 15 then add_score 2 t
      else add_score 1 t
  | None => t
  end.

(** --- Expected Return Check --- *)
Definition check_expected_return (t : Tally) : Tally :=
  match truthy (expected_return analysis) with
  | Some er =>
      if ge er (min_expected_return criteria) then add_score 2 t
      else if ge er 6 then add_score 1 t
      else t
  | None => t
  end.

(** [score >= 8 and len([f for f in flags
                         if 'WARNING' in f or 'AT RISK' in f]) == 0] *)
Definition disqualifying (f : string) : bool :=
  contains "WARNING" f || contains "AT RISK" f.

Definition pass_verdict (sc : Z) (fl : list string) : bool :=
  (8 <=? sc) && (Nat.eqb (List.length (List.filter disqualifying fl)) 0).

(** The checks in program order, from [score = 0] and [flags = []]. *)
Definition run_checks : Tally :=
  check_expected_return
    (check_valuation
      (check_roic_roe
        (check_debt_to_equity
          (check_interest_coverage
            (check_dividend_growth
              (check_payout_ratio
                (check_dividend_yield
                  {| t_score := 0; t_flags := [] |}))))))).
End Checks.

(** The object is updated in place and returned: only [score], [flags]
    and [passes_screen] are assigned. *)
Definition screen_stock (analysis : option StockAnalysis)
    (criteria : ScreeningCriteria) : option StockAnalysis :=
  match analysis with
  | None => None
  | Some a =>
      let t := run_checks a criteria in
      Some {|
        ticker := ticker a; name := name a; sector := sector a;
        dividend_yield := dividend_yield a;
        payout_ratio := payout_ratio a;
        dividend_growth_5yr := dividend_growth_5yr a;
        interest_coverage := interest_coverage a;
        debt_to_equity := debt_to_equity a;
        current_ratio := current_ratio a;
        roic := roic a; roe := roe a; profit_margin := profit_margin a;
        pe_ratio := pe_ratio a; forward_pe := forward_pe a;
        price_to_book := price_to_book a;
        expected_return := expected_return a;
        passes_screen := pass_verdict (t_score t) (t_flags t);
        score := t_score t;
        flags := t_flags t
      |}
  end.

(** ** Metric Deriver: [get_stock_data] *)

(** The provider's [info] dictionary, by the kind of its values: the
    name and the sector are text, every other field read here is a
    number.  [None], or a key that is not in the map, stands for a key
    the dictionary does not have. *)
Record Info := {
  info_shortName : option string;
  info_sector : option string;
  info_numbers : gmap string float
}.

(** [info.get(key)] for a numeric field. *)
Definition get_float (info : Info) (key : string) : option float :=
  info_numbers info !! key.

(** The statement table: one row of per-period values for each line
    item, the most recent period first. *)
Definition DataFrame := gmap string (list float).

(** [financials.empty]: no row at all, or no column. *)
Definition df_empty (df : DataFrame) : bool :=
  forallb (fun row => Nat.eqb (List.length (snd row)) 0) (map_to_list df).

(** What [yf.Ticker(ticker)] gives access to.  [None] stands for an
    attribute whose access raises (or, for [info] and [financials], whose
    value is [None]); dividends are [(year, amount)] distributions in
    date order. *)
Record Stock := {
  info : option Info;
  dividends : option (list (Z * float));
  financials : option DataFrame
}.

(** Statements that may raise inside a [try]. *)
Inductive result (A : Type) :=
| Ok (x : A)
| Raise.
Arguments Ok {A} x.
Arguments Raise {A}.

Definition bind {A B} (r : result A) (k : A -> result B) : result B :=
  match r with
  | Ok x => k x
  | Raise => Raise
  end.

Notation "'do' x <- r ; k" := (bind r (fun x => k))
  (at level 10, x name, r at level 100, k at level 200).

(** [try: v = body  except Exception: pass], for a field that is [None]
    before the block. *)
Definition try_or_absent (body : result (option float)) : option float :=
  match body with
  | Ok v => v
  | Raise => None
  end.

(** [dividends.resample('YE').sum()]: one total per calendar year from
    the first to the last year of the series, in order.  The amounts that
    fall in a year are added up by pandas' [sum], which is taken as
    given: [series_sum] is that sum of the values of one bucket. *)
Definition year_values (y : Z) (divs : list (Z * float)) : list float :=
  List.map snd (List.filter (fun d => fst d =? y) divs).

Definition resample_YE_sum (series_sum : list float -> float)
    (divs : list (Z * float)) : list float :=
  match divs with
  | [] => []
  | (y0, _) :: _ =>
      let y1 := fst (List.last divs (y0, 0%float)) in
      List.map (fun k => series_sum (year_values (y0 + Z.of_nat k) divs))
        (List.seq 0 (Z.to_nat (y1 - y0 + 1)))
  end.

(** [s.iloc[-k]] for [1 <= k <= len(s)]. *)
Definition iloc_neg (k : nat) (s : list float) : result float :=
  match nth_error s (List.length s - k) with
  | Some x => if (k <=? List.length s)%nat then Ok x else Raise
  | None => Raise
  end.

(** [financials.loc[label].iloc[0] if label in financials.index else None] *)
Definition loc_iloc0 (df : DataFrame) (label : string)
    : result (option float) :=
  match df !! label with
  | Some (x :: _) => Ok (Some x)
  | Some [] => Raise
  | None => Ok None
  end.

Section Deriver.
(** Python's float power [x ** y]. *)
Variable pow : float -> float -> float.
(** pandas' [sum] of the values of one bucket. *)
Variable series_sum : list float -> float.
(** The data provider, [yf.Ticker]. *)
Variable yf_Ticker : string -> Stock.

Definition derive_payout_ratio (info : Info) : option float :=
  let payout_ratio := get_float info "payoutRatio" in
  match truthy payout_ratio with
  | Some p => Some (p * 100)%float
  | None => payout_ratio
  end.

Definition derive_dividend_growth_5yr (stock : Stock) : option float :=
  try_or_absent
    match dividends stock with
    | None => Raise
    | Some dividends =>
        if (0 <? List.length dividends)%nat then
          let annual_divs := resample_YE_sum series_sum dividends in
          if (5 <=? List.length annual_divs)%nat then
            do oldest <- iloc_neg 5 annual_divs;
            do newest <- iloc_neg 1 annual_divs;
            if gt oldest 0 then
              Ok (Some ((pow (newest / oldest) 0.2 - 1) * 100)%float)
            else Ok None
          else Ok None
        else Ok None
    end.

Definition derive_debt_to_equity (info : Info)
    : option float :=
  let debt_to_equity := get_float info "debtToEquity" in
  match truthy debt_to_equity with
  | Some d => Some (d / 100)%float
  | None => debt_to_equity
  end.

Definition derive_interest_coverage (stock : Stock) : option float :=
  try_or_absent
    match financials stock with
    | Some financials =>
        if negb (df_empty financials) then
          do ebit <- loc_iloc0 financials "EBIT";
          do interest <- loc_iloc0 financials "Interest Expense";
          match truthy ebit, truthy interest with
          | Some e, Some i =>
              if negb (PrimFloat.eqb i 0) then Ok (Some (abs (e / i))%float)
              else Ok None
          | _, _ => Ok None
          end
        else Ok None
    | None => Ok None
    end.

Definition derive_percent (info : Info) (key : string)
    : option float :=
  let v := get_float info key in
  match truthy v with
  | Some x => Some (x * 100)%float
  | None => v
  end.

Definition derive_roic (info : Info)
    (debt_to_equity : option float) : option float :=
  let roic := get_float info "returnOnAssets" in
  match truthy roic with
  | Some r =>
      let roic := (r * 100)%float in
      match truthy debt_to_equity with
      | Some d =>
          let leverage_factor := (1 + d)%float in
          Some (roic * leverage_factor * 0.8)%float
      | None => Some roic
      end
  | None => roic
  end.

Definition derive_expected_return (info : Info)
    (dividend_yield dividend_growth_5yr : option float) : option float :=
  match truthy dividend_yield, truthy dividend_growth_5yr with
  | Some y, Some g => Some (y + g)%float
  | Some y, None =>
      match truthy (get_float info "earningsGrowth") with
      | Some eg => Some (y + eg * 100)%float
      | None => None
      end
  | None, _ => None
  end.

Definition get_stock_data (ticker : string) : option StockAnalysis :=
  let stock := yf_Ticker ticker in
  match info stock with
  | None => None
  | Some info =>
      match info_shortName info with
      | None => None
      | Some short_name =>
          let dividend_yield := get_float info "dividendYield" in
          let dividend_growth_5yr := derive_dividend_growth_5yr stock in
          let debt_to_equity := derive_debt_to_equity info in
          Some {|
            ticker := ticker;
            name := short_name;
            sector := default "Unknown" (info_sector info);
            dividend_yield := dividend_yield;
            payout_ratio := derive_payout_ratio info;
            dividend_growth_5yr := dividend_growth_5yr;
            interest_coverage := derive_interest_coverage stock;
            debt_to_equity := debt_to_equity;
            current_ratio := get_float info "currentRatio";
            roic := derive_roic info debt_to_equity;
            roe := derive_percent info "returnOnEquity";
            profit_margin := derive_percent info "profitMargins";
            pe_ratio := get_float info "trailingPE";
            forward_pe := get_float info "forwardPE";
            price_to_book := get_float info "priceToBook";
            expected_return :=
              derive_expected_return info dividend_yield dividend_growth_5yr;
            passes_screen := false;
            score := 0;
            flags := []
          |}
      end
  end.
End Deriver.

(** ** Watchlist files: [load_watchlist], [save_watchlist]

    A character of a text is its code point, below 256.  [str.isspace]
    holds there of the code points 9 to 13, of the separators 28 to 31,
    of the space 32, of the next-line control 133 and of the no-break
    space 160; [strip] and [split] use the same characters. *)

Definition newline : ascii := ascii_of_nat 10.
Definition carriage_return : ascii := ascii_of_nat 13.

Definition is_space (ch : ascii) : bool :=
  let n := nat_of_ascii ch in
  ((9 <=? n) && (n <=? 13) || (28 <=? n) && (n <=? 32)
   || (n =? 133) || (n =? 160))%nat.

Fixpoint lstrip (s : string) : string :=
  match s with
  | EmptyString => EmptyString
  | String ch s' => if is_space ch then lstrip s' else s
  end.

Fixpoint rstrip (s : string) : string :=
  match s with
  | EmptyString => EmptyString
  | String ch s' =>
      match rstrip s' with
      | EmptyString => if is_space ch then EmptyString else String ch EmptyString
      | r => String ch r
      end
  end.

(** [s.strip()] *)
Definition strip (s : string) : string := rstrip (lstrip s).

(** [s.split()]: the maximal runs of non-blank characters. *)
Fixpoint split (s : string) : list string :=
  match s with
  | EmptyString => []
  | String ch s' =>
      if is_space ch then split s'
      else
        match s' with
        | EmptyString => [String ch EmptyString]
        | String ch' _ =>
            if is_space ch' then String ch EmptyString :: split s'
            else
              match split s' with
              | w :: ws => String ch w :: ws
              | [] => [String ch EmptyString]
              end
        end
  end.

(** Reading in text mode turns ["\r\n"] and a lone ["\r"] into ["\n"]. *)
Fixpoint universal_newlines (s : string) : string :=
  match s with
  | EmptyString => EmptyString
  | String ch s' =>
      if Ascii.eqb ch carriage_return then
        match s' with
        | String ch' _ =>
            if Ascii.eqb ch' newline then universal_newlines s'
            else String newline (universal_newlines s')
        | EmptyString => String newline EmptyString
        end
      else String ch (universal_newlines s')
  end.

(** [for line in f]: each line keeps its final ["\n"]. *)
Fixpoint readlines (s : string) : list string :=
  match s with
  | EmptyString => []
  | String ch s' =>
      if Ascii.eqb ch newline then String ch EmptyString :: readlines s'
      else
        match readlines s' with
        | l :: ls => String ch l :: ls
        | [] => [String ch EmptyString]
        end
  end.

(** [pd.Timestamp.now()] and its [strftime('%Y-%m-%d %H:%M:%S')]. *)
Record Timestamp := {
  ts_year : Z; ts_month : Z; ts_day : Z;
  ts_hour : Z; ts_minute : Z; ts_second : Z
}.

Definition strftime (t : Timestamp) : string :=
  zfill 4 (string_of_N (ts_year t)) ++ "-" ++
  zfill 2 (string_of_N (ts_month t)) ++ "-" ++
  zfill 2 (string_of_N (ts_day t)) ++ " " ++
  zfill 2 (string_of_N (ts_hour t)) ++ ":" ++
  zfill 2 (string_of_N (ts_minute t)) ++ ":" ++
  zfill 2 (string_of_N (ts_second t)).

(** What a file holds, as a reader in text mode finds it: a text, or
    bytes that the encoding in use cannot decode. *)
Inductive file :=
| Text (content : string)
| Undecodable.

(** The part of the world the two functions touch: the files by path,
    the paths that cannot be opened for reading and those that cannot be
    opened for writing, the characters that the encoding in use can
    write, the clock and the lines printed so far. *)
Record World := {
  files : gmap string file;
  unreadable : gset string;
  unwritable : gset string;
  encodable : ascii -> bool;
  now : Timestamp;
  stdout : list string
}.

Definition print (line : string) (w : World) : World :=
  {| files := files w; unreadable := unreadable w;
     unwritable := unwritable w; encodable := encodable w; now := now w;
     stdout := (stdout w ++ [line])%list |}.

Definition write_file (path : string) (content : file) (w : World)
    : World :=
  {| files := <[path := content]> (files w); unreadable := unreadable w;
     unwritable := unwritable w; encodable := encodable w; now := now w;
     stdout := stdout w |}.

(** How a call ends: it returns, or the process exits ([sys.exit]). *)
Inductive outcome (A : Type) :=
| Return (x : A)
| Exit (code : Z).
Arguments Return {A} x.
Arguments Exit {A} code.

Section Watchlist.
(** Python's [str.upper]. *)
Variable upper : string -> string.

(** The loop body of [load_watchlist] over the lines of the file.  The
    messages printed on failure are given without the exception text. *)
Fixpoint load_lines (lines : list string) (tickers : list string)
    : result (list string) :=
  match lines with
  | [] => Ok tickers
  | line :: rest =>
      let line := strip line in
      if negb (String.eqb line "") && negb (startswith line "#") then
        match split line with
        | word :: _ => load_lines rest (tickers ++ [upper word])%list
        | [] => Raise
        end
      else load_lines rest tickers
  end.

(** A missing file is the [FileNotFoundError]; a file that cannot be
    opened for reading, bytes that cannot be decoded and a failure in
    the loop are the other exceptions. *)
Definition load_watchlist (filename : string) (w : World)
    : outcome (list string) * World :=
  match files w !! filename with
  | Some content =>
      let read :=
        if bool_decide (filename ∈ unreadable w) then Raise
        else
          match content with
          | Text content =>
              load_lines (readlines (universal_newlines content)) []
          | Undecodable => Raise
          end in
      match read with
      | Ok tickers =>
          (Return tickers,
           print ("Loaded " ++ string_of_N (Z.of_nat (List.length tickers))
                  ++ " tickers from " ++ filename) w)
      | Raise => (Exit 1, print "Error reading watchlist file" w)
      end
  | None =>
      (Exit 1,
       print ("Error: Watchlist file '" ++ filename ++ "' not found") w)
  end.
End Watchlist.

(** The encoding in use can write the text. *)
Fixpoint can_encode (encodable : ascii -> bool) (text : string) : bool :=
  match text with
  | EmptyString => true
  | String ch text' => encodable ch && can_encode encodable text'
  end.

(** [f.write(text)] for each text in turn, after what was [written]
    before.  A text that cannot be encoded raises; the texts before it
    stay written.  The result is what the file holds when it is closed
    and whether every write went through. *)
Fixpoint write_each (encodable : ascii -> bool) (texts : list string)
    (written : string) : string * bool :=
  match texts with
  | [] => (written, true)
  | text :: rest =>
      if can_encode encodable text
      then write_each encodable rest (written ++ text)
      else (written, false)
  end.

(** The texts that [save_watchlist] writes: the two comment lines with a
    blank line, then one line per ticker. *)
Definition watchlist_writes (tickers : list string) (t : Timestamp)
    : list string :=
  ("# Stock Watchlist" ++ String newline "")
  :: ("# Generated on " ++ strftime t
        ++ String newline (String newline ""))
  :: List.map (fun ticker => ticker ++ String newline "") tickers.

(** Opening the file for writing empties it.  When the file cannot be
    opened nothing is written; when a write raises, the file keeps what
    was written before.  The message printed on failure is given without
    the exception text. *)
Definition save_watchlist (tickers : list string) (filename : string)
    (w : World) : outcome unit * World :=
  if bool_decide (filename ∈ unwritable w) then
    (Exit 1, print "Error saving watchlist" w)
  else
    let (written, done) :=
      write_each (encodable w) (watchlist_writes tickers (now w)) "" in
    let w := write_file filename (Text written) w in
    if done then
      (Return tt,
       print ("Saved " ++ string_of_N (Z.of_nat (List.length tickers))
              ++ " tickers to " ++ filename) w)
    else (Exit 1, print "Error saving watchlist" w).

(** ** Reporting: [format_value], [print_analysis] *)

(** [f"{n}"] for an integer. *)
Definition string_of_int (n : Z) : string :=
  if n <? 0 then "-" ++ string_of_N (- n) else string_of_N n.

Definition format_value (value : option float) (suffix : string)
    (decimal : nat) : string :=
  match value with
  | None => "N/A"
  | Some x => format_fixed decimal x ++ suffix
  end.

(** ['=' * 60] *)
Fixpoint repeat_char (ch : ascii) (n : nat) : string :=
  match n with
  | O => ""
  | S n' => String ch (repeat_char ch n')
  end.

Definition rule60 : string := repeat_char "=" 60.

(** A [print] that ends with [ending] instead of a line break: the entry
    in [stdout] is the text with that ending. *)
Definition print_end (text ending : string) (w : World) : World :=
  print (text ++ ending) w.

Definition print_all (lines : list string) (w : World) : World :=
  fold_left (fun w line => print line w) lines w.

Definition print_analysis (analysis : StockAnalysis) (verbose : bool)
    (w : World) : World :=
  let status := if passes_screen analysis then "PASS" else "REVIEW" in
  let w := print (String newline rule60) w in
  let w := print (ticker analysis ++ " - " ++ name analysis) w in
  let w := print ("Sector: " ++ sector analysis) w in
  let w := print ("Score: " ++ string_of_int (score analysis)
                  ++ "/15 | Status: " ++ status) w in
  let w := print rule60 w in
  let w :=
    if verbose then
      print_all
        [ String newline "Dividend Metrics:";
          "  Dividend Yield:     "
            ++ format_value (dividend_yield analysis) "%" 1;
          "  Payout Ratio:       "
            ++ format_value (payout_ratio analysis) "%" 1;
          "  5-Year Div Growth:  "
            ++ format_value (dividend_growth_5yr analysis) "%" 1;
          String newline "Balance Sheet:";
          "  Interest Coverage:  "
            ++ format_value (interest_coverage analysis) "x" 1;
          "  Debt/Equity:        "
            ++ format_value (debt_to_equity analysis) "" 2;
          "  Current Ratio:      "
            ++ format_value (current_ratio analysis) "" 2;
          String newline "Profitability:";
          "  ROIC (est):         " ++ format_value (roic analysis) "%" 1;
          "  ROE:                " ++ format_value (roe analysis) "%" 1;
          "  Profit Margin:      "
            ++ format_value (profit_margin analysis) "%" 1;
          String newline "Valuation:";
          "  P/E Ratio:          " ++ format_value (pe_ratio analysis) "" 1;
          "  Forward P/E:        " ++ format_value (forward_pe analysis) "" 1;
          "  Price/Book:         "
            ++ format_value (price_to_book analysis) "" 2;
          String newline "Expected Return:      "
            ++ format_value (expected_return analysis) "%" 1;
          "  (Dividend Yield + Growth Rate)" ] w
    else w in
  match flags analysis with
  | [] => w
  | _ =>
      let w := print (String newline "Flags/Concerns:") w in
      print_all (List.map (fun flag => "  - " ++ flag) (flags analysis)) w
  end.

(** ** Screening a list: [screen_stocks] *)

(** One row of the result table, and before that one record of
    [results].  In a metric column [None] is Python's [None] and
    [Some nan] is NaN. *)
Record Row := {
  row_ticker : string;
  row_name : string;
  row_sector : string;
  row_score : Z;
  row_pass : bool;
  row_div_yield : option float;
  row_payout_ratio : option float;
  row_div_growth_5y : option float;
  row_interest_cov : option float;
  row_debt_equity : option float;
  row_roic : option float;
  row_roe : option float;
  row_pe : option float;
  row_expected_return : option float;
  row_flags : string
}.

(** [sep.join(items)] *)
Fixpoint join (sep : string) (items : list string) : string :=
  match items with
  | [] => ""
  | [x] => x
  | x :: rest => x ++ sep ++ join sep rest
  end.

Definition result_row (analysis : StockAnalysis) : Row := {|
  row_ticker := ticker analysis;
  row_name := name analysis;
  row_sector := sector analysis;
  row_score := score analysis;
  row_pass := passes_screen analysis;
  row_div_yield := dividend_yield analysis;
  row_payout_ratio := payout_ratio analysis;
  row_div_growth_5y := dividend_growth_5yr analysis;
  row_interest_cov := interest_coverage analysis;
  row_debt_equity := debt_to_equity analysis;
  row_roic := roic analysis;
  row_roe := roe analysis;
  row_pe := pe_ratio analysis;
  row_expected_return := expected_return analysis;
  row_flags := match flags analysis with
               | [] => ""
               | _ => join "; " (flags analysis)
               end
|}.

(** [pd.DataFrame(results)], column by column.  A metric column in which
    some record holds a number becomes a column of floats, where a
    [None] is stored as NaN; a column in which no record holds a number
    keeps its [None]s.  The other columns are kept as they are. *)
Definition has_number (column : Row -> option float) (results : list Row)
    : bool :=
  existsb (fun r => match column r with Some _ => true | None => false end)
    results.

Definition column_cell (column : Row -> option float) (results : list Row)
    (r : Row) : option float :=
  match column r with
  | Some x => Some x
  | None => if has_number column results then Some nan else None
  end.

Definition frame_row (results : list Row) (r : Row) : Row := {|
  row_ticker := row_ticker r;
  row_name := row_name r;
  row_sector := row_sector r;
  row_score := row_score r;
  row_pass := row_pass r;
  row_div_yield := column_cell row_div_yield results r;
  row_payout_ratio := column_cell row_payout_ratio results r;
  row_div_growth_5y := column_cell row_div_growth_5y results r;
  row_interest_cov := column_cell row_interest_cov results r;
  row_debt_equity := column_cell row_debt_equity results r;
  row_roic := column_cell row_roic results r;
  row_roe := column_cell row_roe results r;
  row_pe := column_cell row_pe results r;
  row_expected_return := column_cell row_expected_return results r;
  row_flags := row_flags r
|}.

Definition pd_DataFrame (results : list Row) : list Row :=
  List.map (frame_row results) results.

(** [r1] may stand before [r2] in a table sorted by falling score. *)
Definition score_before (r1 r2 : Row) : Prop := row_score r2 <= row_score r1.

#[global] Instance score_before_dec (r1 r2 : Row) :
  Decision (score_before r1 r2).
Proof. unfold score_before. apply _. Defined.

(** [df.sort_values('Score', ascending=False)].  Rows of equal score come
    out in the order a merge sort leaves them; pandas fixes none. *)
Definition sort_values_score (df : list Row) : list Row :=
  merge_sort score_before df.

Section ScreenStocks.
Variable pow : float -> float -> float.
Variable series_sum : list float -> float.
Variable yf_Ticker : string -> Stock.

(** The loop of [screen_stocks].  [screen_stock] hands back the analysis
    it was given, so its result is never [None] here. *)
Fixpoint screen_each (tickers : list string) (criteria : ScreeningCriteria)
    (verbose : bool) (results : list Row) (w : World) : list Row * World :=
  match tickers with
  | [] => (results, w)
  | ticker :: rest =>
      let w := print_end ("Analyzing " ++ ticker ++ "...") " " w in
      match get_stock_data pow series_sum yf_Ticker ticker with
      | Some analysis =>
          match screen_stock (Some analysis) criteria with
          | Some analysis =>
              let w := print_analysis analysis verbose w in
              screen_each rest criteria verbose
                (results ++ [result_row analysis])%list w
          | None => (results, w)
          end
      | None =>
          screen_each rest criteria verbose results (print "Failed" w)
      end
  end.

Definition screen_stocks (tickers : list string)
    (criteria : option ScreeningCriteria) (verbose : bool) (w : World)
    : list Row * World :=
  let criteria := default default_criteria criteria in
  let (results, w) := screen_each tickers criteria verbose [] w in
  let df := pd_DataFrame results in
  let df := match df with
            | [] => df
            | _ => sort_values_score df
            end in
  (df, w).
End ScreenStocks.

(** ** The command line *)

Definition DIVIDEND_ARISTOCRATS : list string :=
  ["JNJ"; "PG"; "KO"; "PEP"; "MMM"; "ABT"; "ABBV"; "MCD"; "WMT"; "XOM";
   "CVX"; "HD"; "LOW"; "TGT"; "CL"; "GPC"; "SWK"; "EMR"; "ITW"; "ADP"].

Definition DIVIDEND_KINGS : list string :=
  ["PG"; "KO"; "JNJ"; "CL"; "EMR"; "MMM"; "GPC"; "DOV"; "NWN"; "PH"].

(** The parsed arguments. *)
Record Args := {
  args_tickers : list string;
  args_aristocrats : bool;
  args_kings : bool;
  args_min_yield : float;
  args_max_pe : float;
  args_min_roic : float;
  args_brief : bool;
  args_export : option string;
  args_watchlist : option string;
  args_save_watchlist : option string
}.

(** Truthiness of an optional string: [None] and [""] are falsy. *)
Definition truthy_str (o : option string) : option string :=
  match o with
  | Some s => if String.eqb s "" then None else Some s
  | None => None
  end.

(** [not any([args.tickers, args.aristocrats, args.kings,
              args.watchlist])]: the run goes to the interactive mode. *)
Definition goes_interactive (args : Args) : bool :=
  negb (negb (Nat.eqb (length (args_tickers args)) 0)
        || args_aristocrats args || args_kings args
        || match truthy_str (args_watchlist args) with
           | Some _ => true
           | None => false
           end).

Section CommandLine.
(** Python's [str.upper]. *)
Variable upper : string -> string.

(** "Determine which tickers to screen". *)
Definition select_tickers (args : Args) (w : World)
    : outcome (list string) * World :=
  match truthy_str (args_watchlist args) with
  | Some filename =>
      match load_watchlist upper filename w with
      | (Return tickers, w) =>
          (Return tickers,
           print ("Screening tickers from watchlist: " ++ filename) w)
      | (Exit code, w) => (Exit code, w)
      end
  | None =>
      match args_tickers args with
      | _ :: _ => (Return (List.map upper (args_tickers args)), w)
      | [] =>
          if args_kings args then
            (Return DIVIDEND_KINGS,
             print ("Screening Dividend Kings "
                    ++ "(50+ years of consecutive dividend increases)") w)
          else if args_aristocrats args then
            (Return DIVIDEND_ARISTOCRATS,
             print ("Screening Dividend Aristocrats "
                    ++ "(25+ years of consecutive dividend increases)") w)
          else (Return [], w)
      end
  end.

(** "Set up criteria": three thresholds come from the arguments. *)
Definition cli_criteria (args : Args) : ScreeningCriteria := {|
  min_dividend_yield := args_min_yield args;
  max_dividend_yield := max_dividend_yield default_criteria;
  min_dividend_years := min_dividend_years default_criteria;
  max_payout_ratio := max_payout_ratio default_criteria;
  max_payout_ratio_reit := max_payout_ratio_reit default_criteria;
  min_interest_coverage := min_interest_coverage default_criteria;
  min_interest_coverage_reit := min_interest_coverage_reit default_criteria;
  max_debt_to_equity := max_debt_to_equity default_criteria;
  min_roic := args_min_roic args;
  min_roe := min_roe default_criteria;
  max_pe_ratio := args_max_pe args;
  min_expected_return := min_expected_return default_criteria
|}.

(** "Save watchlist if requested". *)
Definition save_if_requested (args : Args) (tickers : list string)
    (w : World) : outcome unit * World :=
  match truthy_str (args_save_watchlist args) with
  | Some filename => save_watchlist tickers filename w
  | None => (Return tt, w)
  end.

(** The tickers typed in the interactive mode:
    [input("Tickers: ").strip().upper()], then [split()]; [None] when
    nothing was entered and the program exits. *)
Definition parse_ticker_input (typed : string) : option (list string) :=
  let ticker_input := upper (strip typed) in
  if String.eqb ticker_input "" then None else Some (split ticker_input).
End CommandLine.

(** ** Vocabulary of the statements *)

Definition tally0 : Tally := {| t_score := 0; t_flags := [] |}.

Definition tally_plus (t u : Tally) : Tally :=
  {| t_score := t_score t + t_score u;
     t_flags := (t_flags t ++ t_flags u)%list |}.

(** The payout flags among a list of flags. *)
Definition payout_flag (f : string) : bool :=
  startswith f "High payout ratio" || startswith f "DIVIDEND AT RISK".

Definition payout_flags (fl : list string) : list string :=
  List.filter payout_flag fl.

(** The low-yield flags among a list of flags. *)
Definition low_yield_flags (fl : list string) : list string :=
  List.filter (fun f => startswith f "Low dividend yield") fl.

Definition metrics_absent (a : StockAnalysis) : Prop :=
  dividend_yield a = None /\ payout_ratio a = None /\
  dividend_growth_5yr a = None /\ interest_coverage a = None /\
  debt_to_equity a = None /\ roic a = None /\ roe a = None /\
  pe_ratio a = None /\ expected_return a = None.

(** The same analysis with another payout ratio. *)
Definition with_payout_ratio (v : option float) (a : StockAnalysis)
    : StockAnalysis := {|
  ticker := ticker a; name := name a; sector := sector a;
  dividend_yield := dividend_yield a;
  payout_ratio := v;
  dividend_growth_5yr := dividend_growth_5yr a;
  interest_coverage := interest_coverage a;
  debt_to_equity := debt_to_equity a;
  current_ratio := current_ratio a;
  roic := roic a; roe := roe a; profit_margin := profit_margin a;
  pe_ratio := pe_ratio a; forward_pe := forward_pe a;
  price_to_book := price_to_book a;
  expected_return := expected_return a;
  passes_screen := passes_screen a; score := score a; flags := flags a
|}.

(** The payout ceiling that applies to a sector. *)
Definition payout_ceiling (a : StockAnalysis) (c : ScreeningCriteria)
    : float :=
  if is_high_leverage_sector (sector a) then max_payout_ratio_reit c
  else max_payout_ratio c.

(** The payout rule for a payout ratio [p]: [r] is the screened analysis,
    [r0] the screened analysis without its payout ratio. *)
Definition payout_rule (p ceiling : float) (r r0 : StockAnalysis) : Prop :=
  (gt p ceiling = true ->
     payout_flags (flags r)
       = ["High payout ratio: " ++ format_fixed 1 p ++ "%"] /\
     score r = score r0) /\
  (gt p ceiling = false -> gt p 90 = true ->
     payout_flags (flags r)
       = ["DIVIDEND AT RISK: Payout ratio " ++ format_fixed 1 p ++ "%"] /\
     score r = score r0) /\
  (gt p ceiling = false -> gt p 90 = false ->
     payout_flags (flags r) = [] /\
     score r = score r0 + 2 /\ flags r = flags r0).

(** The payout rule as it reads for every present payout ratio. *)
Definition payout_rule_when_present (a : StockAnalysis)
    (c : ScreeningCriteria) : Prop :=
  forall p r r0,
    payout_ratio a = Some p ->
    screen_stock (Some a) c = Some r ->
    screen_stock (Some (with_payout_ratio None a)) c = Some r0 ->
    payout_rule p (payout_ceiling a c) r r0.

(** [x] is [y], or [x] is a zero where [y] is absent. *)
Definition zero_for_absent (x y : option float) : Prop :=
  x = y \/ exists z, x = Some z /\ PrimFloat.eqb z 0 = true /\ y = None.

(** Two analyses that differ only by zeros standing where the other has
    nothing, in the metrics the evaluator reads. *)
Definition zeros_for_absent (a a' : StockAnalysis) : Prop :=
  sector a = sector a' /\
  zero_for_absent (dividend_yield a) (dividend_yield a') /\
  zero_for_absent (payout_ratio a) (payout_ratio a') /\
  zero_for_absent (dividend_growth_5yr a) (dividend_growth_5yr a') /\
  zero_for_absent (interest_coverage a) (interest_coverage a') /\
  zero_for_absent (debt_to_equity a) (debt_to_equity a') /\
  zero_for_absent (roic a) (roic a') /\
  zero_for_absent (roe a) (roe a') /\
  zero_for_absent (pe_ratio a) (pe_ratio a') /\
  zero_for_absent (expected_return a) (expected_return a').

(** *** Sample inputs *)

Definition sample (sec : string) (dy pr dg ic de ro re pe er : option float)
    : StockAnalysis := {|
  ticker := "ACME"; name := "Acme Corp"; sector := sec;
  dividend_yield := dy; payout_ratio := pr; dividend_growth_5yr := dg;
  interest_coverage := ic; debt_to_equity := de; current_ratio := None;
  roic := ro; roe := re; profit_margin := None;
  pe_ratio := pe; forward_pe := None; price_to_book := None;
  expected_return := er;
  passes_screen := false; score := 0; flags := []
|}.

(** Every check at its best. *)
Definition sample_best : StockAnalysis :=
  sample "Technology" (Some 3%float) (Some 40%float) (Some 12%float) (Some 20%float) (Some 0.3%float)
    (Some 20%float) None (Some 12%float) (Some 15%float).

(** Score 9 with a yield-trap warning. *)
Definition sample_warning_9 : StockAnalysis :=
  sample "Technology" (Some 9.5%float) (Some 40%float) (Some 12%float) (Some 20%float) (Some 0.3%float)
    None None None None.

(** Score 8 without any flag. *)
Definition sample_clean_8 : StockAnalysis :=
  sample "Technology" (Some 3%float) (Some 40%float) None (Some 20%float) (Some 0.3%float)
    None None None None.

(** Payout ratio 95% outside the high-leverage sectors. *)
Definition sample_payout_95 : StockAnalysis :=
  sample "Consumer Staples" (Some 3%float) (Some 95%float) None None None
    None None None None.

(** A payout ratio of zero, as for a company that pays no dividend. *)
Definition sample_payout_0 : StockAnalysis :=
  sample "Technology" (Some 3%float) (Some 0%float) None None None
    None None None None.

(** A dividend yield of zero, and the same analysis without a yield. *)
Definition sample_yield_0 : StockAnalysis :=
  sample "Technology" (Some 0%float) (Some 40%float) None None (Some 0%float)
    None None None None.

Definition sample_yield_none : StockAnalysis :=
  sample "Technology" None (Some 40%float) None None None
    None None None None.

(** A fifth root by Newton's iteration: it stands for [x ** 0.2] in the
    sample runs of the deriver. *)
Fixpoint newton5 (n : nat) (x r : float) : float :=
  match n with
  | O => r
  | S n' => newton5 n' x ((4 * r + x / (r * r * r * r)) / 5)%float
  end.

Definition sample_pow (x y : float) : float := newton5 60 x x.

Definition sample_info (fields : list (string * float)) : Info := {|
  info_shortName := Some "Acme Corp";
  info_sector := Some "Industrials";
  info_numbers := list_to_map fields
|}.

(** A sum for the samples: the values added from left to right. *)
Definition sample_sum (values : list float) : float :=
  fold_left (fun acc x => (acc + x)%float) values 0%float.

(** ROA 10%, debt/equity 50%; EBIT -100 against an interest expense of 10;
    annual dividend totals 10, 10, 10, 10, 20. *)
Definition sample_stock : Stock := {|
  info := Some (sample_info [("returnOnAssets", 0.1%float);
                             ("debtToEquity", 50%float)]);
  dividends := Some [(2019, 5%float); (2019, 5%float); (2020, 10%float);
                     (2021, 10%float); (2022, 10%float); (2023, 20%float)];
  financials := Some (<["EBIT" := [(-100)%float; 80%float]]>
                        (<["Interest Expense" := [10%float; 9%float]]> ∅))
|}.

(** The provider reports zeros: no debt, no payout, no return. *)
Definition sample_stock_zeros : Stock := {|
  info := Some (sample_info [("returnOnAssets", 0.1%float);
                             ("debtToEquity", 0%float);
                             ("payoutRatio", 0%float);
                             ("returnOnEquity", 0%float);
                             ("profitMargins", 0%float)]);
  dividends := Some [];
  financials := None
|}.

(** Interest coverage as EBIT over the absolute value of the interest
    expense. *)
Definition ebit_over_abs_interest (ebit interest : float) : float :=
  (ebit / abs interest)%float.

(** Interest coverage by that formula whenever both line items are there
    and the interest expense is not zero. *)
Definition coverage_is_ebit_over_abs_interest
    (stock : Stock) (a : StockAnalysis) : Prop :=
  forall fin e es i ies,
    financials stock = Some fin ->
    fin !! "EBIT" = Some (e :: es) ->
    fin !! "Interest Expense" = Some (i :: ies) ->
    PrimFloat.eqb i 0 = false ->
    interest_coverage a = Some (ebit_over_abs_interest e i).

(** ROIC with the leverage adjustment. *)
Definition leveraged_roic (roa d : float) : float :=
  (roa * 100 * (1 + d) * 0.8)%float.

(** The adjustment applied whenever debt/equity is known. *)
Definition roic_adjusted_when_known (roa : float) (a : StockAnalysis)
    : Prop :=
  forall d, debt_to_equity a = Some d -> roic a = Some (leveraged_roic roa d).

(** A stand-in for [str.upper] in the samples, which are ASCII text: it
    raises the letters a to z and keeps every other character, as
    [str.upper] does on ASCII text. *)
Definition sample_upper_char (ch : ascii) : ascii :=
  let n := nat_of_ascii ch in
  if ((97 <=? n) && (n <=? 122))%nat then ascii_of_nat (n - 32) else ch.

Fixpoint sample_upper (s : string) : string :=
  match s with
  | EmptyString => EmptyString
  | String ch s' => String (sample_upper_char ch) (sample_upper s')
  end.

(** An encoding that can write the ASCII characters and no other. *)
Definition ascii_only (ch : ascii) : bool := (nat_of_ascii ch <? 128)%nat.

Definition sample_world : World := {|
  files := ∅;
  unreadable := ∅;
  unwritable := ∅;
  encodable := ascii_only;
  now := {| ts_year := 2026; ts_month := 3; ts_day := 7;
            ts_hour := 9; ts_minute := 5; ts_second := 0 |};
  stdout := []
|}.

(** A ticker that survives a round trip through a watchlist file: not
    empty, without blanks, not starting a comment. *)
Fixpoint no_space (s : string) : bool :=
  match s with
  | EmptyString => true
  | String ch s' => negb (is_space ch) && no_space s'
  end.

(** The character [c] does not occur in [s]. *)
Fixpoint free_of (c : ascii) (s : string) : bool :=
  match s with
  | EmptyString => true
  | String ch s' => negb (Ascii.eqb ch c) && free_of c s'
  end.

Definition plain_ticker (s : string) : bool :=
  negb (String.eqb s "") && no_space s && negb (startswith s "#").

(** What some statements ask of [str.upper]: that the upper case of such
    a ticker is such a ticker, and that text in upper case is left as it
    is. *)
Definition upper_keeps_plain (upper : string -> string) : Prop :=
  forall t, plain_ticker t = true -> plain_ticker (upper t) = true.

Definition upper_idempotent (upper : string -> string) : Prop :=
  forall t, upper (upper t) = upper t.

(** [str.upper] works word by word: whitespace stays where it is and a
    word becomes a word. *)
Definition upper_by_word (upper : string -> string) : Prop :=
  upper "" = "" /\
  forall s, split (upper s) = List.map upper (split s).

(** What the file holds after a save whose writes all went through: the
    two comment lines, a blank line, then one line per ticker. *)
Fixpoint write_tickers (tickers : list string) : string :=
  match tickers with
  | [] => ""
  | ticker :: rest => ticker ++ String newline (write_tickers rest)
  end.

Definition watchlist_text (tickers : list string) (t : Timestamp) : string :=
  "# Stock Watchlist" ++ String newline
    ("# Generated on " ++ strftime t ++
       String newline (String newline (write_tickers tickers))).



(** The round trip as it reads for every list of tickers: after a save
    that returns, a load of the file, if it can be opened for reading,
    returns the tickers in upper case. *)
Definition watchlist_roundtrip (upper : string -> string)
    (tickers : list string) : Prop :=
  forall filename w w',
    save_watchlist tickers filename w = (Return tt, w') ->
    filename ∉ unreadable w' ->
    fst (load_watchlist upper filename w') = Return (List.map upper tickers).

(** Sixteen quarterly distributions over the four years 2020 to 2023. *)
Definition sample_stock_quarterly : Stock := {|
  info := Some (sample_info [("dividendYield", 2.5%float)]);
  dividends :=
    Some (List.flat_map
            (fun y => [(y, 1%float); (y, 1%float); (y, 1%float); (y, 1%float)])
            [2020; 2021; 2022; 2023]);
  financials := None
|}.

(** A yield of 2.5% with the annual dividend totals 10, 10, 10, 10, 20. *)
Definition sample_stock_growing : Stock := {|
  info := Some (sample_info [("dividendYield", 2.5%float);
                             ("earningsGrowth", 0.5%float)]);
  dividends := Some [(2019, 10%float); (2020, 10%float); (2021, 10%float);
                     (2022, 10%float); (2023, 20%float)];
  financials := None
|}.

(** A yield of 2.5% with an earnings growth of 0.25 and no dividend
    history. *)
Definition sample_stock_earnings : Stock := {|
  info := Some (sample_info [("dividendYield", 2.5%float);
                             ("earningsGrowth", 0.25%float)]);
  dividends := Some [];
  financials := None
|}.

(** A word: not empty and without blanks. *)
Definition is_word (w : string) : bool :=
  no_space w && negb (String.eqb w "").

(** A run of blanks. *)
Fixpoint blank (s : string) : bool :=
  match s with
  | EmptyString => true
  | String ch s' => is_space ch && blank s'
  end.

(** A hand-written watchlist: comments, a blank line, an indented
    ticker in lower case with a note after it. *)
Definition sample_watchlist_text : string :=
  "# My favorite dividend stocks" ++ String newline
    ("JNJ" ++ String newline
       ("  pg   # Procter" ++ String newline
          (String newline ("# Tech" ++ String newline ("msft" ++ String newline ""))))).

Definition sample_world_with_list : World := {|
  files := {["stocks.txt" := Text sample_watchlist_text]};
  unreadable := ∅;
  unwritable := ∅;
  encodable := ascii_only;
  now := now sample_world;
  stdout := []
|}.

(** [u] is empty or begins with a blank. *)
Definition startswith_blank (u : string) : bool :=
  match u with
  | EmptyString => true
  | String ch _ => is_space ch
  end.

(** The row that [screen_stocks] makes for a ticker, if the ticker is
    known to the provider. *)
Definition screened_row (pow : float -> float -> float)
    (ssum : list float -> float)
    (yf : string -> Stock) (c : ScreeningCriteria) (t : string)
    : option Row :=
  match get_stock_data pow ssum yf t with
  | Some a =>
      match screen_stock (Some a) c with
      | Some r => Some (result_row r)
      | None => None
      end
  | None => None
  end.

(** A cell of the table holds a metric: the number where there is one,
    a missing value, [None] or NaN, where there is none. *)
Definition cell_holds (metric cell : option float) : Prop :=
  match metric with
  | Some x => cell = Some x
  | None => cell = None \/ cell = Some nan
  end.

(** The provider knows the ticker. *)
Definition found (pow : float -> float -> float)
    (ssum : list float -> float) (yf : string -> Stock) (t : string)
    : bool :=
  match get_stock_data pow ssum yf t with
  | Some _ => true
  | None => false
  end.

(** A provider that knows two tickers. *)
Definition sample_provider (t : string) : Stock :=
  if String.eqb t "ACME" then sample_stock
  else if String.eqb t "QRT" then sample_stock_quarterly
  else {| info := None; dividends := None; financials := None |}.

Definition sample_args : Args := {|
  args_tickers := ["jnj"; "ko"];
  args_aristocrats := false;
  args_kings := true;
  args_min_yield := 1.5;
  args_max_pe := 25;
  args_min_roic := 12;
  args_brief := false;
  args_export := None;
  args_watchlist := None;
  args_save_watchlist := Some "mine.txt"
|}.

Definition sample_args_reload : Args := {|
  args_tickers := [];
  args_aristocrats := false;
  args_kings := false;
  args_min_yield := 1.5;
  args_max_pe := 25;
  args_min_roic := 12;
  args_brief := false;
  args_export := None;
  args_watchlist := Some "mine.txt";
  args_save_watchlist := None
|}.

(** *** Further vocabulary for the evaluator *)

(** The flags that veto a pass. *)
Definition veto_flags (fl : list string) : list string :=
  List.filter disqualifying fl.

(** The yield is in the yield-trap branch of its check. *)
Definition yield_trap (a : StockAnalysis) (c : ScreeningCriteria) : bool :=
  match truthy (dividend_yield a) with
  | Some y => negb (lt y (min_dividend_yield c)) && gt y (max_dividend_yield c)
  | None => false
  end.

(** The payout ratio is in the dividend-at-risk branch of its check. *)
Definition payout_at_risk (a : StockAnalysis) (c : ScreeningCriteria)
    : bool :=
  match truthy (payout_ratio a) with
  | Some p => negb (gt p (payout_ceiling a c)) && gt p 90
  | None => false
  end.

(** The high-debt flags among a list of flags. *)
Definition debt_flags (fl : list string) : list string :=
  List.filter (fun f => startswith f "High debt/equity") fl.

Definition is_digit (ch : ascii) : bool :=
  let n := nat_of_ascii ch in ((48 <=? n) && (n <=? 57))%nat.

(** ** Properties of the Rule Evaluator *)

Example format_fixed_samples :
  format_fixed 2 9.5 = "9.50" /\ format_fixed 1 0.25 = "0.2" /\
  format_fixed 2 2.675 = "2.67" /\ format_fixed 1 (-95.25) = "-95.2" /\
  format_fixed 1 nan = "nan" /\ format_fixed 2 (-0) = "-0.00" /\
  format_fixed 1 1e22 = "10000000000000000000000.0" /\
  format_fixed 2 0.005 = "0.01" /\ format_fixed 1 neg_infinity = "-inf".
Proof. vm_compute. repeat split. Qed.

Example sector_classification :
  is_high_leverage_sector "Utilities - Regulated Electric" = true /\
  is_high_leverage_sector "REIT - Industrial" = true /\
  is_high_leverage_sector "Consumer Staples" = false.
Proof. vm_compute. repeat split. Qed.

(** *** Every check adds its own contribution

    A check reads the analysis and the criteria, never the running
    tally: it adds a score and appends flags.  So the final tally is the
    sum of what each check yields from the empty tally. *)

Lemma tally_eq (t u : Tally) :
  t_score t = t_score u -> t_flags t = t_flags u -> t = u.
Proof. destruct t, u; simpl; intros; subst; reflexivity. Qed.

Lemma add_score_plus (n : Z) (t : Tally) :
  add_score n t = tally_plus t (add_score n tally0).
Proof. apply tally_eq; simpl; [lia | now rewrite app_nil_r]. Qed.

Lemma append_flag_plus (f : string) (t : Tally) :
  append_flag f t = tally_plus t (append_flag f tally0).
Proof. apply tally_eq; simpl; [lia | reflexivity]. Qed.

Lemma tally_plus_0_r (t : Tally) : tally_plus t tally0 = t.
Proof. apply tally_eq; simpl; [lia | now rewrite app_nil_r]. Qed.

Lemma tally_plus_assoc (t u v : Tally) :
  tally_plus (tally_plus t u) v = tally_plus t (tally_plus u v).
Proof. apply tally_eq; simpl; [lia | now rewrite app_assoc]. Qed.

Ltac split_ifs :=
  repeat match goal with
         | |- context [match ?b with _ => _ end] => destruct b eqn:?
         end.

Ltac solve_plus :=
  intros; split_ifs;
  first [ symmetry; apply tally_plus_0_r
        | apply add_score_plus
        | apply append_flag_plus
        | apply tally_eq; simpl; rewrite ?app_nil_r; (lia || reflexivity) ].

Section Contributions.
Variable a : StockAnalysis.
Variable c : ScreeningCriteria.

Lemma check_dividend_yield_plus t :
  check_dividend_yield a c t = tally_plus t (check_dividend_yield a c tally0).
Proof. unfold check_dividend_yield. solve_plus. Qed.

Lemma check_payout_ratio_plus t :
  check_payout_ratio a c t = tally_plus t (check_payout_ratio a c tally0).
Proof. unfold check_payout_ratio. solve_plus. Qed.

Lemma check_dividend_growth_plus t :
  check_dividend_growth a t = tally_plus t (check_dividend_growth a tally0).
Proof. unfold check_dividend_growth. solve_plus. Qed.

Lemma check_interest_coverage_plus t :
  check_interest_coverage a c t
  = tally_plus t (check_interest_coverage a c tally0).
Proof. unfold check_interest_coverage. solve_plus. Qed.

Lemma check_debt_to_equity_plus t :
  check_debt_to_equity a c t = tally_plus t (check_debt_to_equity a c tally0).
Proof. unfold check_debt_to_equity. solve_plus. Qed.

Lemma check_roic_roe_plus t :
  check_roic_roe a c t = tally_plus t (check_roic_roe a c tally0).
Proof. unfold check_roic_roe. solve_plus. Qed.

Lemma check_valuation_plus t :
  check_valuation a c t = tally_plus t (check_valuation a c tally0).
Proof. unfold check_valuation. solve_plus. Qed.

Lemma check_expected_return_plus t :
  check_expected_return a c t
  = tally_plus t (check_expected_return a c tally0).
Proof. unfold check_expected_return. solve_plus. Qed.

Lemma run_checks_score :
  t_score (run_checks a c) =
    t_score (check_dividend_yield a c tally0)
    + t_score (check_payout_ratio a c tally0)
    + t_score (check_dividend_growth a tally0)
    + t_score (check_interest_coverage a c tally0)
    + t_score (check_debt_to_equity a c tally0)
    + t_score (check_roic_roe a c tally0)
    + t_score (check_valuation a c tally0)
    + t_score (check_expected_return a c tally0).
Proof.
  unfold run_checks. fold tally0.
  rewrite check_expected_return_plus, check_valuation_plus,
    check_roic_roe_plus, check_debt_to_equity_plus,
    check_interest_coverage_plus, check_dividend_growth_plus,
    check_payout_ratio_plus.
  unfold tally_plus at 1 2 3 4 5 6 7. cbn [t_score]. lia.
Qed.

Lemma run_checks_flags :
  t_flags (run_checks a c) =
    (t_flags (check_dividend_yield a c tally0)
     ++ t_flags (check_payout_ratio a c tally0)
     ++ t_flags (check_dividend_growth a tally0)
     ++ t_flags (check_interest_coverage a c tally0)
     ++ t_flags (check_debt_to_equity a c tally0)
     ++ t_flags (check_roic_roe a c tally0)
     ++ t_flags (check_valuation a c tally0)
     ++ t_flags (check_expected_return a c tally0))%list.
Proof.
  unfold run_checks. fold tally0.
  rewrite check_expected_return_plus, check_valuation_plus,
    check_roic_roe_plus, check_debt_to_equity_plus,
    check_interest_coverage_plus, check_dividend_growth_plus,
    check_payout_ratio_plus.
  unfold tally_plus at 1 2 3 4 5 6 7. cbn [t_flags].
  now rewrite <- !app_assoc.
Qed.
End Contributions.

(** *** What [screen_stock] returns *)

Lemma screen_stock_some (a : StockAnalysis) (c : ScreeningCriteria) :
  exists r, screen_stock (Some a) c = Some r /\
    score r = t_score (run_checks a c) /\
    flags r = t_flags (run_checks a c) /\
    passes_screen r = pass_verdict (score r) (flags r).
Proof. eexists; split; [reflexivity|]. cbn [score flags passes_screen]. auto. Qed.

Lemma no_filtered_iff {A} (p : A -> bool) (l : list A) :
  List.length (List.filter p l) = 0%nat <-> forall x, In x l -> p x = false.
Proof.
  induction l as [|y l IH]; simpl.
  - split; [intros _ x [] | reflexivity].
  - destruct (p y) eqn:Hy; simpl.
    + split; [discriminate|]. intros H. specialize (H y (or_introl eq_refl)).
      congruence.
    + rewrite IH. split.
      * intros H x [<-|Hx]; auto.
      * intros H x Hx. apply H. now right.
Qed.

Lemma pass_verdict_iff (sc : Z) (fl : list string) :
  pass_verdict sc fl = true <->
  8 <= sc /\
  forall f, In f fl -> contains "WARNING" f = false /\ contains "AT RISK" f = false.
Proof.
  unfold pass_verdict.
  rewrite andb_true_iff, Z.leb_le, Nat.eqb_eq, no_filtered_iff.
  unfold disqualifying. split; intros [H8 H]; split; auto; intros f Hf.
  - now apply orb_false_iff, H.
  - now apply orb_false_iff, H.
Qed.

(** C1: the pass verdict of [screen_stock] is true exactly when the score
    is at least 8 and no flag contains "WARNING" or "AT RISK"; so a score
    of 9 with a flag containing "WARNING" fails, and a score of 8 without
    such a flag passes. *)
Theorem screen_stock_pass_iff (a : StockAnalysis) (c : ScreeningCriteria) :
  exists r, screen_stock (Some a) c = Some r /\
    (passes_screen r = true <->
       8 <= score r /\
       forall f, In f (flags r) ->
         contains "WARNING" f = false /\ contains "AT RISK" f = false) /\
    (score r = 9 ->
       (exists f, In f (flags r) /\ contains "WARNING" f = true) ->
       passes_screen r = false) /\
    (score r = 8 ->
       (forall f, In f (flags r) ->
          contains "WARNING" f = false /\ contains "AT RISK" f = false) ->
       passes_screen r = true).
Proof.
  destruct (screen_stock_some a c) as (r & Hr & _ & _ & Hp).
  exists r. split; [exact Hr|].
  assert (Hiff := pass_verdict_iff (score r) (flags r)). rewrite <- Hp in Hiff.
  split; [exact Hiff|]. split.
  - intros _ (f & Hf & Hw). apply not_true_is_false. intros Hpass.
    apply Hiff in Hpass as [_ Hno]. destruct (Hno f Hf) as [Hw' _]. congruence.
  - intros H8 Hno. apply Hiff. split; [lia | exact Hno].
Qed.

Lemma screen_stock_pass_iff_witness :
  (exists r, screen_stock (Some sample_warning_9) default_criteria = Some r /\
     score r = 9 /\ passes_screen r = false) /\
  (exists r, screen_stock (Some sample_clean_8) default_criteria = Some r /\
     score r = 8 /\ passes_screen r = true).
Proof.
  split.
  - destruct (screen_stock_pass_iff sample_warning_9 default_criteria)
      as (r & Hr & _ & H9 & _).
    exists r. split; [exact Hr|].
    vm_compute in Hr. injection Hr as <-. split; [reflexivity|].
    apply H9; [reflexivity|]. eexists. split; [left; reflexivity | reflexivity].
  - destruct (screen_stock_pass_iff sample_clean_8 default_criteria)
      as (r & Hr & _ & _ & H8).
    exists r. split; [exact Hr|].
    vm_compute in Hr. injection Hr as <-. split; [reflexivity|].
    apply H8; [reflexivity|]. intros f [].
Defined.

(** C3: with every optional metric absent the evaluator returns score 0,
    a false pass verdict and a flag list that includes "No dividend data". *)
Theorem screen_stock_all_absent (a : StockAnalysis) (c : ScreeningCriteria) :
  metrics_absent a ->
  exists r, screen_stock (Some a) c = Some r /\
    score r = 0 /\ passes_screen r = false /\ In "No dividend data" (flags r).
Proof.
  intros (Hy & Hp & Hg & Hi & Hd & Hr & He & Hv & Hx).
  destruct (screen_stock_some a c) as (r & Hs & Hsc & Hfl & Hpass).
  exists r. split; [exact Hs|].
  assert (Hscore : score r = 0).
  { rewrite Hsc, run_checks_score.
    unfold check_dividend_yield, check_payout_ratio, check_dividend_growth,
      check_interest_coverage, check_debt_to_equity, check_roic_roe,
      check_valuation, check_expected_return, truthy_and.
    rewrite Hy, Hp, Hg, Hi, Hd, Hr, He, Hv, Hx. reflexivity. }
  split; [exact Hscore|]. split.
  - rewrite Hpass, Hscore. reflexivity.
  - rewrite Hfl, run_checks_flags. apply in_or_app. left.
    unfold check_dividend_yield. rewrite Hy. left. reflexivity.
Qed.

Lemma screen_stock_all_absent_witness :
  exists r,
    screen_stock (Some (new_analysis "KO" "Coca-Cola" "Consumer Defensive"))
      default_criteria = Some r /\
    score r = 0 /\ passes_screen r = false /\ In "No dividend data" (flags r).
Proof.
  apply (screen_stock_all_absent
           (new_analysis "KO" "Coca-Cola" "Consumer Defensive")).
  repeat split.
Defined.

(** *** The range of the score *)

Section ScoreRange.
Variable a : StockAnalysis.
Variable c : ScreeningCriteria.

Ltac range_cases := split_ifs; cbn [t_score add_score append_flag tally0]; lia.

Lemma check_dividend_yield_range :
  0 <= t_score (check_dividend_yield a c tally0) <= 2.
Proof. unfold check_dividend_yield. range_cases. Qed.

Lemma check_payout_ratio_range :
  0 <= t_score (check_payout_ratio a c tally0) <= 2.
Proof. unfold check_payout_ratio. range_cases. Qed.

Lemma check_dividend_growth_range :
  0 <= t_score (check_dividend_growth a tally0) <= 3.
Proof. unfold check_dividend_growth. range_cases. Qed.

Lemma check_interest_coverage_range :
  0 <= t_score (check_interest_coverage a c tally0) <= 2.
Proof. unfold check_interest_coverage. range_cases. Qed.

Lemma check_debt_to_equity_range :
  0 <= t_score (check_debt_to_equity a c tally0) <= 2.
Proof. unfold check_debt_to_equity. range_cases. Qed.

Lemma check_roic_roe_range :
  0 <= t_score (check_roic_roe a c tally0) <= 2.
Proof. unfold check_roic_roe. range_cases. Qed.

Lemma check_valuation_range :
  0 <= t_score (check_valuation a c tally0) <= 2.
Proof. unfold check_valuation. range_cases. Qed.

Lemma check_expected_return_range :
  0 <= t_score (check_expected_return a c tally0) <= 2.
Proof. unfold check_expected_return. range_cases. Qed.

(** The eight checks can add 2+2+3+2+2+2+2+2 points. *)
Lemma run_checks_score_range : 0 <= t_score (run_checks a c) <= 17.
Proof.
  rewrite run_checks_score.
  pose proof check_dividend_yield_range. pose proof check_payout_ratio_range.
  pose proof check_dividend_growth_range.
  pose proof check_interest_coverage_range.
  pose proof check_debt_to_equity_range. pose proof check_roic_roe_range.
  pose proof check_valuation_range. pose proof check_expected_return_range.
  lia.
Qed.
End ScoreRange.

Lemma screen_stock_score_range (a : StockAnalysis) (c : ScreeningCriteria) :
  exists r, screen_stock (Some a) c = Some r /\ 0 <= score r <= 17.
Proof.
  destruct (screen_stock_some a c) as (r & Hs & Hsc & _).
  exists r. split; [exact Hs|]. rewrite Hsc. apply run_checks_score_range.
Qed.

(** C7: the score is not bounded by 15.  An analysis that earns every
    point, the growth bonus included, scores 17 under the default
    criteria, above the 15 that the report prints as the scale. *)
Theorem screen_stock_score_above_15 :
  exists r, screen_stock (Some sample_best) default_criteria = Some r /\
    score r = 17 /\ ~ score r <= 15.
Proof.
  eexists. split; [vm_compute; reflexivity|]. cbn [score]. split; lia.
Qed.

(** C9: screening assigns only [score], [flags] and [passes_screen]; the
    identity fields and every metric field of the analysis are unchanged. *)
Theorem screen_stock_frame (a : StockAnalysis) (c : ScreeningCriteria) :
  exists r, screen_stock (Some a) c = Some r /\
    ticker r = ticker a /\ name r = name a /\ sector r = sector a /\
    dividend_yield r = dividend_yield a /\
    payout_ratio r = payout_ratio a /\
    dividend_growth_5yr r = dividend_growth_5yr a /\
    interest_coverage r = interest_coverage a /\
    debt_to_equity r = debt_to_equity a /\
    current_ratio r = current_ratio a /\
    roic r = roic a /\ roe r = roe a /\ profit_margin r = profit_margin a /\
    pe_ratio r = pe_ratio a /\ forward_pe r = forward_pe a /\
    price_to_book r = price_to_book a /\
    expected_return r = expected_return a.
Proof. eexists. split; [reflexivity|]. repeat split. Qed.

(** *** The payout rule *)

Lemma payout_flags_app (l1 l2 : list string) :
  payout_flags (l1 ++ l2) = (payout_flags l1 ++ payout_flags l2)%list.
Proof. apply List.filter_app. Qed.

Section PayoutRule.
Variable a : StockAnalysis.
Variable c : ScreeningCriteria.

Ltac no_payout_flag := split_ifs; reflexivity.

Lemma check_dividend_yield_no_payout_flag :
  payout_flags (t_flags (check_dividend_yield a c tally0)) = [].
Proof. unfold check_dividend_yield. no_payout_flag. Qed.

Lemma check_dividend_growth_no_payout_flag :
  payout_flags (t_flags (check_dividend_growth a tally0)) = [].
Proof. unfold check_dividend_growth. no_payout_flag. Qed.

Lemma check_interest_coverage_no_payout_flag :
  payout_flags (t_flags (check_interest_coverage a c tally0)) = [].
Proof. unfold check_interest_coverage. no_payout_flag. Qed.

Lemma check_debt_to_equity_no_payout_flag :
  payout_flags (t_flags (check_debt_to_equity a c tally0)) = [].
Proof. unfold check_debt_to_equity. no_payout_flag. Qed.

Lemma check_roic_roe_no_payout_flag :
  payout_flags (t_flags (check_roic_roe a c tally0)) = [].
Proof. unfold check_roic_roe. no_payout_flag. Qed.

Lemma check_valuation_no_payout_flag :
  payout_flags (t_flags (check_valuation a c tally0)) = [].
Proof. unfold check_valuation. no_payout_flag. Qed.

Lemma check_expected_return_no_payout_flag :
  payout_flags (t_flags (check_expected_return a c tally0)) = [].
Proof. unfold check_expected_return. no_payout_flag. Qed.

(** Only the payout check contributes payout flags. *)
Lemma run_checks_payout_flags :
  payout_flags (t_flags (run_checks a c))
  = payout_flags (t_flags (check_payout_ratio a c tally0)).
Proof.
  rewrite run_checks_flags, !payout_flags_app.
  rewrite check_dividend_yield_no_payout_flag,
    check_dividend_growth_no_payout_flag,
    check_interest_coverage_no_payout_flag,
    check_debt_to_equity_no_payout_flag, check_roic_roe_no_payout_flag,
    check_valuation_no_payout_flag, check_expected_return_no_payout_flag.
  cbn [app]. now rewrite app_nil_r.
Qed.

(** Without the payout ratio the other checks give what they gave. *)
Lemma run_checks_without_payout_score :
  t_score (run_checks a c)
  = t_score (run_checks (with_payout_ratio None a) c)
    + t_score (check_payout_ratio a c tally0).
Proof.
  rewrite !run_checks_score.
  change (check_dividend_yield (with_payout_ratio None a) c)
    with (check_dividend_yield a c).
  change (check_payout_ratio (with_payout_ratio None a) c tally0) with tally0.
  change (check_dividend_growth (with_payout_ratio None a))
    with (check_dividend_growth a).
  change (check_interest_coverage (with_payout_ratio None a) c)
    with (check_interest_coverage a c).
  change (check_debt_to_equity (with_payout_ratio None a) c)
    with (check_debt_to_equity a c).
  change (check_roic_roe (with_payout_ratio None a) c)
    with (check_roic_roe a c).
  change (check_valuation (with_payout_ratio None a) c)
    with (check_valuation a c).
  change (check_expected_return (with_payout_ratio None a) c)
    with (check_expected_return a c).
  cbn [t_score tally0]. lia.
Qed.

Lemma check_payout_ratio_cases (p : float) :
  payout_ratio a = Some p -> PrimFloat.eqb p 0 = false ->
  check_payout_ratio a c tally0 =
    if gt p (payout_ceiling a c) then
      append_flag ("High payout ratio: " ++ format_fixed 1 p ++ "%") tally0
    else if gt p 90 then
      append_flag ("DIVIDEND AT RISK: Payout ratio "
                   ++ format_fixed 1 p ++ "%") tally0
    else add_score 2 tally0.
Proof.
  intros Hp Hnz. unfold check_payout_ratio, truthy, payout_ceiling.
  rewrite Hp, Hnz. reflexivity.
Qed.
End PayoutRule.

Lemma run_checks_without_payout_flags (a : StockAnalysis)
    (c : ScreeningCriteria) :
  t_flags (check_payout_ratio a c tally0) = [] ->
  t_flags (run_checks a c) = t_flags (run_checks (with_payout_ratio None a) c).
Proof.
  intros Hnone. rewrite !run_checks_flags, Hnone.
  change (check_payout_ratio (with_payout_ratio None a) c tally0) with tally0.
  reflexivity.
Qed.

(** C2, as the code has it: for a payout ratio that is present and not
    zero, the ceiling check comes first and excludes the >90 check.  Above
    the sector ceiling only the "High payout ratio" flag fires; otherwise
    above 90 only the "DIVIDEND AT RISK" flag fires; otherwise the check
    adds 2 to the score and no payout flag fires. *)
Theorem payout_rule_nonzero (a : StockAnalysis) (c : ScreeningCriteria)
    (p : float) :
  payout_ratio a = Some p ->
  PrimFloat.eqb p 0 = false ->
  exists r r0,
    screen_stock (Some a) c = Some r /\
    screen_stock (Some (with_payout_ratio None a)) c = Some r0 /\
    payout_rule p (payout_ceiling a c) r r0.
Proof.
  intros Hp Hnz.
  destruct (screen_stock_some a c) as (r & Hr & Hsc & Hfl & _).
  destruct (screen_stock_some (with_payout_ratio None a) c)
    as (r0 & Hr0 & Hsc0 & Hfl0 & _).
  exists r, r0. split; [exact Hr|]. split; [exact Hr0|].
  pose proof (check_payout_ratio_cases a c p Hp Hnz) as Hcases.
  unfold payout_rule.
  rewrite Hsc, Hsc0, Hfl, Hfl0, run_checks_payout_flags,
    (run_checks_without_payout_score a c).
  split; [|split].
  - intros Hceil. rewrite Hcases, Hceil. split; [reflexivity|].
    cbn [t_score append_flag tally0]. lia.
  - intros Hceil H90. rewrite Hcases, Hceil, H90. split; [reflexivity|].
    cbn [t_score append_flag tally0]. lia.
  - intros Hceil H90. rewrite Hcases, Hceil, H90.
    split; [reflexivity|]. split; [reflexivity|].
    apply run_checks_without_payout_flags.
    rewrite Hcases, Hceil, H90. reflexivity.
Qed.

Lemma payout_rule_nonzero_witness :
  exists r r0,
    screen_stock (Some sample_payout_95) default_criteria = Some r /\
    screen_stock (Some (with_payout_ratio None sample_payout_95))
      default_criteria = Some r0 /\
    payout_rule 95 (payout_ceiling sample_payout_95 default_criteria) r r0.
Proof.
  apply (payout_rule_nonzero sample_payout_95 default_criteria 95);
    reflexivity.
Defined.

(** The payout rule does not hold for every present payout ratio: a
    payout ratio of zero is below the ceiling and below 90, yet it adds
    nothing to the score. *)
Lemma payout_rule_fails_at_zero :
  ~ payout_rule_when_present sample_payout_0 default_criteria.
Proof.
  intros H.
  destruct (H 0%float _ _ eq_refl eq_refl eq_refl) as (_ & _ & H3).
  destruct (H3 eq_refl eq_refl) as (_ & Hs & _).
  vm_compute in Hs. discriminate Hs.
Qed.

(** *** A zero metric is read as an absent one *)

Lemma truthy_zero_for_absent (x y : option float) :
  zero_for_absent x y -> truthy x = truthy y.
Proof.
  intros [->|(z & -> & Hz & ->)]; [reflexivity|].
  simpl. now rewrite Hz.
Qed.

Lemma truthy_and_zero_for_absent (x y : option float) (p : float -> bool) :
  zero_for_absent x y -> truthy_and x p = truthy_and y p.
Proof.
  intros H. unfold truthy_and. now rewrite (truthy_zero_for_absent x y H).
Qed.

Lemma run_checks_zeros_for_absent (a a' : StockAnalysis)
    (c : ScreeningCriteria) :
  zeros_for_absent a a' -> run_checks a c = run_checks a' c.
Proof.
  intros (Hsec & Hy & Hp & Hg & Hi & Hd & Hro & Hre & Hpe & Her).
  assert (E1 : forall t, check_dividend_yield a c t = check_dividend_yield a' c t).
  { intros t. unfold check_dividend_yield.
    now rewrite (truthy_zero_for_absent _ _ Hy). }
  assert (E2 : forall t, check_payout_ratio a c t = check_payout_ratio a' c t).
  { intros t. unfold check_payout_ratio.
    now rewrite (truthy_zero_for_absent _ _ Hp), Hsec. }
  assert (E3 : forall t, check_dividend_growth a t = check_dividend_growth a' t).
  { intros t. unfold check_dividend_growth.
    now rewrite (truthy_zero_for_absent _ _ Hg). }
  assert (E4 : forall t,
             check_interest_coverage a c t = check_interest_coverage a' c t).
  { intros t. unfold check_interest_coverage.
    now rewrite (truthy_zero_for_absent _ _ Hi), Hsec. }
  assert (E5 : forall t, check_debt_to_equity a c t = check_debt_to_equity a' c t).
  { intros t. unfold check_debt_to_equity.
    now rewrite (truthy_zero_for_absent _ _ Hd), Hsec. }
  assert (E6 : forall t, check_roic_roe a c t = check_roic_roe a' c t).
  { intros t. unfold check_roic_roe.
    rewrite (truthy_and_zero_for_absent _ _ _ Hro).
    destruct Hre as [->|(z & -> & Hz & ->)]; [reflexivity|].
    unfold truthy_and, truthy. now rewrite Hz. }
  assert (E7 : forall t, check_valuation a c t = check_valuation a' c t).
  { intros t. unfold check_valuation.
    now rewrite (truthy_zero_for_absent _ _ Hpe). }
  assert (E8 : forall t,
             check_expected_return a c t = check_expected_return a' c t).
  { intros t. unfold check_expected_return.
    now rewrite (truthy_zero_for_absent _ _ Her). }
  unfold run_checks. now rewrite E1, E2, E3, E4, E5, E6, E7, E8.
Qed.

Lemma screen_stock_zeros_for_absent (a a' : StockAnalysis)
    (c : ScreeningCriteria) :
  zeros_for_absent a a' ->
  exists r r',
    screen_stock (Some a) c = Some r /\ screen_stock (Some a') c = Some r' /\
    score r = score r' /\ flags r = flags r' /\
    passes_screen r = passes_screen r'.
Proof.
  intros H.
  destruct (screen_stock_some a c) as (r & Hr & Hsc & Hfl & Hp).
  destruct (screen_stock_some a' c) as (r' & Hr' & Hsc' & Hfl' & Hp').
  exists r, r'. split; [exact Hr|]. split; [exact Hr'|].
  rewrite Hp, Hp', Hsc, Hsc', Hfl, Hfl', (run_checks_zeros_for_absent a a' c H).
  auto.
Qed.

Lemma low_yield_flags_app (l1 l2 : list string) :
  low_yield_flags (l1 ++ l2) = (low_yield_flags l1 ++ low_yield_flags l2)%list.
Proof. apply List.filter_app. Qed.

Lemma run_checks_low_yield_flags (a : StockAnalysis) (c : ScreeningCriteria) :
  low_yield_flags (t_flags (run_checks a c))
  = low_yield_flags (t_flags (check_dividend_yield a c tally0)).
Proof.
  rewrite run_checks_flags, !low_yield_flags_app.
  assert (E2 : low_yield_flags (t_flags (check_payout_ratio a c tally0)) = []).
  { unfold check_payout_ratio. split_ifs; reflexivity. }
  assert (E3 : low_yield_flags (t_flags (check_dividend_growth a tally0)) = []).
  { unfold check_dividend_growth. split_ifs; reflexivity. }
  assert (E4 : low_yield_flags
                 (t_flags (check_interest_coverage a c tally0)) = []).
  { unfold check_interest_coverage. split_ifs; reflexivity. }
  assert (E5 : low_yield_flags (t_flags (check_debt_to_equity a c tally0)) = []).
  { unfold check_debt_to_equity. split_ifs; reflexivity. }
  assert (E6 : low_yield_flags (t_flags (check_roic_roe a c tally0)) = []).
  { unfold check_roic_roe. split_ifs; reflexivity. }
  assert (E7 : low_yield_flags (t_flags (check_valuation a c tally0)) = []).
  { unfold check_valuation. split_ifs; reflexivity. }
  assert (E8 : low_yield_flags
                 (t_flags (check_expected_return a c tally0)) = []).
  { unfold check_expected_return. split_ifs; reflexivity. }
  rewrite E2, E3, E4, E5, E6, E7, E8. cbn [app]. now rewrite app_nil_r.
Qed.

Lemma screen_stock_zero_yield (a : StockAnalysis) (c : ScreeningCriteria)
    (z : float) :
  dividend_yield a = Some z -> PrimFloat.eqb z 0 = true ->
  exists r, screen_stock (Some a) c = Some r /\
    In "No dividend data" (flags r) /\ low_yield_flags (flags r) = [].
Proof.
  intros Hy Hz.
  destruct (screen_stock_some a c) as (r & Hr & _ & Hfl & _).
  exists r. split; [exact Hr|].
  assert (E : check_dividend_yield a c tally0
              = append_flag "No dividend data" tally0).
  { unfold check_dividend_yield, truthy. now rewrite Hy, Hz. }
  rewrite Hfl. split.
  - rewrite run_checks_flags, E. apply in_or_app. left. left. reflexivity.
  - rewrite run_checks_low_yield_flags, E. reflexivity.
Qed.

(** ** Properties of the Metric Deriver *)

(** A ticker with a name gets an analysis, whose metrics are the derived
    ones. *)
Lemma get_stock_data_some (pow : float -> float -> float)
    (ssum : list float -> float)
    (yf : string -> Stock) (t : string) (inf : Info) :
  info (yf t) = Some inf -> is_Some (info_shortName inf) ->
  exists a, get_stock_data pow ssum yf t = Some a /\
    payout_ratio a = derive_payout_ratio inf /\
    dividend_growth_5yr a = derive_dividend_growth_5yr pow ssum (yf t) /\
    interest_coverage a = derive_interest_coverage (yf t) /\
    debt_to_equity a = derive_debt_to_equity inf /\
    roic a = derive_roic inf (derive_debt_to_equity inf) /\
    roe a = derive_percent inf "returnOnEquity" /\
    profit_margin a = derive_percent inf "profitMargins".
Proof.
  intros Hinfo [v Hname]. unfold get_stock_data. rewrite Hinfo, Hname.
  eexists. split; [reflexivity|]. cbn. repeat split.
Qed.

(** *** Interest coverage *)

Lemma df_not_empty (df : DataFrame) (label : string) (x : float)
    (xs : list float) :
  df !! label = Some (x :: xs) -> df_empty df = false.
Proof.
  intros Hrow. apply not_true_is_false. unfold df_empty. intros Hall.
  rewrite forallb_forall in Hall.
  specialize (Hall (label, x :: xs)). simpl in Hall.
  assert (Hin : In (label, x :: xs) (map_to_list df)).
  { apply list_elem_of_In, elem_of_map_to_list, Hrow. }
  specialize (Hall Hin). discriminate Hall.
Qed.

Lemma derive_interest_coverage_present (stock : Stock) (fin : DataFrame)
    (e i : float) (es ies : list float) :
  financials stock = Some fin ->
  fin !! "EBIT" = Some (e :: es) ->
  fin !! "Interest Expense" = Some (i :: ies) ->
  derive_interest_coverage stock =
    if PrimFloat.eqb e 0 then None
    else if PrimFloat.eqb i 0 then None
    else Some (abs (e / i))%float.
Proof.
  intros Hfin He Hi. unfold derive_interest_coverage, loc_iloc0.
  rewrite Hfin, (df_not_empty fin _ _ _ He), He, Hi.
  unfold bind, truthy, try_or_absent.
  destruct (PrimFloat.eqb e 0); [reflexivity|].
  destruct (PrimFloat.eqb i 0) eqn:Hi0; [reflexivity|].
  now rewrite Hi0.
Qed.

Lemma derive_interest_coverage_missing (stock : Stock) (fin : DataFrame) :
  financials stock = Some fin ->
  fin !! "EBIT" = None \/ fin !! "Interest Expense" = None ->
  derive_interest_coverage stock = None.
Proof.
  intros Hfin Hmiss. unfold derive_interest_coverage, loc_iloc0.
  rewrite Hfin. destruct (df_empty fin); [reflexivity|]. cbn.
  destruct Hmiss as [-> | ->].
  - destruct (fin !! "Interest Expense") as [[|i ies]|]; reflexivity.
  - destruct (fin !! "EBIT") as [[|e es]|]; cbn; try reflexivity.
    destruct (PrimFloat.eqb e 0); reflexivity.
Qed.

(** C4, as the code has it: interest coverage is the absolute value of
    EBIT divided by Interest Expense, both of the most recent period and
    EBIT not zero; it is absent when the statements, the EBIT row or the
    Interest Expense row is missing, or the interest expense is zero.  For
    an EBIT of -100 and an interest expense of 10 the coverage is 10. *)
Theorem interest_coverage_abs_quotient (pow : float -> float -> float)
    (ssum : list float -> float)
    (yf : string -> Stock) (t : string) (inf : Info) :
  info (yf t) = Some inf -> is_Some (info_shortName inf) ->
  exists a, get_stock_data pow ssum yf t = Some a /\
    (forall fin e es i ies,
       financials (yf t) = Some fin ->
       fin !! "EBIT" = Some (e :: es) ->
       fin !! "Interest Expense" = Some (i :: ies) ->
       PrimFloat.eqb e 0 = false -> PrimFloat.eqb i 0 = false ->
       interest_coverage a = Some (abs (e / i))%float) /\
    (financials (yf t) = None -> interest_coverage a = None) /\
    (forall fin,
       financials (yf t) = Some fin ->
       fin !! "EBIT" = None \/ fin !! "Interest Expense" = None ->
       interest_coverage a = None) /\
    (forall fin e es i ies,
       financials (yf t) = Some fin ->
       fin !! "EBIT" = Some (e :: es) ->
       fin !! "Interest Expense" = Some (i :: ies) ->
       PrimFloat.eqb i 0 = true ->
       interest_coverage a = None) /\
    (forall fin es ies,
       financials (yf t) = Some fin ->
       fin !! "EBIT" = Some ((-100)%float :: es) ->
       fin !! "Interest Expense" = Some (10%float :: ies) ->
       interest_coverage a = Some 10%float).
Proof.
  intros Hinfo Hname.
  destruct (get_stock_data_some pow ssum yf t inf Hinfo Hname)
    as (a & Ha & _ & _ & Hic & _).
  exists a. split; [exact Ha|]. rewrite Hic. repeat split.
  - intros fin e es i ies Hfin He Hi Hez Hiz.
    rewrite (derive_interest_coverage_present _ _ _ _ _ _ Hfin He Hi).
    now rewrite Hez, Hiz.
  - intros Hnone. unfold derive_interest_coverage. now rewrite Hnone.
  - intros fin Hfin Hmiss.
    exact (derive_interest_coverage_missing _ _ Hfin Hmiss).
  - intros fin e es i ies Hfin He Hi Hiz.
    rewrite (derive_interest_coverage_present _ _ _ _ _ _ Hfin He Hi).
    rewrite Hiz. destruct (PrimFloat.eqb e 0); reflexivity.
  - intros fin es ies Hfin He Hi.
    rewrite (derive_interest_coverage_present _ _ _ _ _ _ Hfin He Hi).
    reflexivity.
Qed.

Lemma interest_coverage_abs_quotient_witness :
  exists a, get_stock_data sample_pow sample_sum (fun _ => sample_stock) "ACME" = Some a /\
    interest_coverage a = Some 10%float.
Proof.
  destruct (interest_coverage_abs_quotient sample_pow sample_sum (fun _ => sample_stock)
              "ACME" _ eq_refl)
    as (a & Ha & _ & _ & _ & _ & Hex).
  { eexists. reflexivity. }
  exists a. split; [exact Ha|].
  eapply Hex; reflexivity.
Defined.

(** With EBIT -100 and interest expense 10 the derived coverage is not
    EBIT over the absolute interest expense, which is -10: it is 10. *)
Lemma interest_coverage_not_ebit_over_abs :
  exists a, get_stock_data sample_pow sample_sum (fun _ => sample_stock) "ACME" = Some a /\
    interest_coverage a = Some 10%float /\
    ~ coverage_is_ebit_over_abs_interest sample_stock a.
Proof.
  eexists. split; [vm_compute; reflexivity|]. split; [reflexivity|].
  intros Hclaim.
  specialize (Hclaim _ (-100)%float [80%float] 10%float [9%float]
                eq_refl eq_refl eq_refl eq_refl).
  apply (f_equal (fun o => match o with
                           | Some x => PrimFloat.ltb x 0
                           | None => false
                           end)) in Hclaim.
  vm_compute in Hclaim. discriminate Hclaim.
Qed.

(** *** ROIC *)

Lemma derive_roic_cases (inf : Info) (r : float)
    (de : option float) :
  get_float inf "returnOnAssets" = Some r -> PrimFloat.eqb r 0 = false ->
  derive_roic inf de =
    match truthy de with
    | Some d => Some (leveraged_roic r d)
    | None => Some (r * 100)%float
    end.
Proof.
  intros Hr Hnz. unfold derive_roic, truthy at 1. now rewrite Hr, Hnz.
Qed.

(** C5, as the code has it: for a return on assets that is not zero, ROIC
    is ROA times 100, times the leverage factor (1 + debt/equity) and
    times 0.8 when debt/equity is known and not zero; it is the unadjusted
    ROA percentage when debt/equity is absent or zero.  For an ROA
    percentage of 10 and a debt/equity of 0.5 the ROIC is 12.0. *)
Theorem roic_leverage_adjustment (pow : float -> float -> float)
    (ssum : list float -> float)
    (yf : string -> Stock) (t : string) (inf : Info)
    (r : float) :
  info (yf t) = Some inf -> is_Some (info_shortName inf) ->
  get_float inf "returnOnAssets" = Some r -> PrimFloat.eqb r 0 = false ->
  exists a, get_stock_data pow ssum yf t = Some a /\
    (forall d, debt_to_equity a = Some d -> PrimFloat.eqb d 0 = false ->
       roic a = Some (r * 100 * (1 + d) * 0.8)%float) /\
    (debt_to_equity a = None -> roic a = Some (r * 100)%float) /\
    (forall d, debt_to_equity a = Some d -> PrimFloat.eqb d 0 = true ->
       roic a = Some (r * 100)%float) /\
    ((r * 100)%float = 10%float -> debt_to_equity a = Some 0.5%float ->
       roic a = Some 12%float).
Proof.
  intros Hinfo Hname Hr Hnz.
  destruct (get_stock_data_some pow ssum yf t inf Hinfo Hname)
    as (a & Ha & _ & _ & _ & Hde & Hroic & _).
  exists a. split; [exact Ha|].
  rewrite Hroic, (derive_roic_cases inf r _ Hr Hnz), <- Hde.
  repeat split.
  - intros d Hd Hdz. rewrite Hd. unfold truthy. now rewrite Hdz.
  - intros Hd. now rewrite Hd.
  - intros d Hd Hdz. rewrite Hd. unfold truthy. now rewrite Hdz.
  - intros H10 Hd. rewrite Hd. cbn. unfold leveraged_roic. rewrite H10.
    reflexivity.
Qed.

Lemma roic_leverage_adjustment_witness :
  exists a, get_stock_data sample_pow sample_sum (fun _ => sample_stock) "ACME" = Some a /\
    debt_to_equity a = Some 0.5%float /\ roic a = Some 12%float.
Proof.
  destruct (roic_leverage_adjustment sample_pow sample_sum (fun _ => sample_stock)
              "ACME" _ 0.1 eq_refl)
    as (a & Ha & _ & _ & _ & Hex); try reflexivity.
  { eexists. reflexivity. }
  exists a. split; [exact Ha|].
  assert (Hd : debt_to_equity a = Some 0.5%float).
  { vm_compute in Ha. injection Ha as <-. reflexivity. }
  split; [exact Hd|]. apply Hex; [reflexivity | exact Hd].
Defined.

(** A debt/equity that is known to be zero leaves ROIC unadjusted: with an
    ROA of 10% the ROIC is 10, not 10 x 1 x 0.8. *)
Lemma roic_not_adjusted_at_zero_debt :
  exists a,
    get_stock_data sample_pow sample_sum (fun _ => sample_stock_zeros) "ACME" = Some a /\
    debt_to_equity a = Some 0%float /\ roic a = Some 10%float /\
    ~ roic_adjusted_when_known 0.1 a.
Proof.
  eexists. split; [vm_compute; reflexivity|].
  split; [reflexivity|]. split; [reflexivity|].
  intros Hclaim. specialize (Hclaim 0%float eq_refl).
  apply (f_equal (fun o => match o with
                           | Some x => PrimFloat.ltb x 9
                           | None => false
                           end)) in Hclaim.
  vm_compute in Hclaim. discriminate Hclaim.
Qed.

(** *** Five-year dividend growth *)

Lemma le_zero_not_gt (x : float) : le x 0 = true -> gt x 0 = false.
Proof.
  unfold le, gt. rewrite leb_spec, ltb_spec.
  change (Prim2SF 0) with (S754_zero false).
  destruct (Prim2SF x) as [s|s| |s m e]; try destruct s; cbn; congruence.
Qed.

Lemma iloc_neg_nth (k : nat) (s : list float) (x : float) :
  (k <= List.length s)%nat ->
  nth_error s (List.length s - k) = Some x -> iloc_neg k s = Ok x.
Proof.
  intros Hk Hx. unfold iloc_neg. rewrite Hx.
  now rewrite (proj2 (Nat.leb_le _ _) Hk).
Qed.

Lemma derive_dividend_growth_short (pow : float -> float -> float)
    (ssum : list float -> float)
    (stock : Stock) (divs : list (Z * float)) :
  dividends stock = Some divs ->
  (List.length (resample_YE_sum ssum divs) < 5)%nat ->
  derive_dividend_growth_5yr pow ssum stock = None.
Proof.
  intros Hd Hlen. unfold derive_dividend_growth_5yr. rewrite Hd.
  destruct (0 <? List.length divs)%nat; [|reflexivity].
  now rewrite (proj2 (Nat.leb_gt _ _) Hlen).
Qed.

Lemma derive_dividend_growth_long (pow : float -> float -> float)
    (ssum : list float -> float)
    (stock : Stock) (divs : list (Z * float)) (oldest newest : float) :
  dividends stock = Some divs ->
  let annual := resample_YE_sum ssum divs in
  (5 <= List.length annual)%nat ->
  nth_error annual (List.length annual - 5) = Some oldest ->
  nth_error annual (List.length annual - 1) = Some newest ->
  derive_dividend_growth_5yr pow ssum stock =
    if gt oldest 0 then Some ((pow (newest / oldest) 0.2 - 1) * 100)%float
    else None.
Proof.
  intros Hd annual Hlen Hold Hnew. unfold derive_dividend_growth_5yr.
  rewrite Hd.
  assert (Hne : (0 <? List.length divs)%nat = true).
  { destruct divs; [simpl in Hlen; lia | reflexivity]. }
  rewrite Hne. fold annual.
  rewrite (proj2 (Nat.leb_le _ _) Hlen).
  rewrite (iloc_neg_nth 5 annual oldest Hlen Hold).
  rewrite (iloc_neg_nth 1 annual newest) by (lia || exact Hnew).
  cbn [bind]. destruct (gt oldest 0); reflexivity.
Qed.

(** C6: five-year dividend growth is ((newest annual total / the total
    fifth from the end) ** 0.2 - 1) * 100; it needs five annual totals and
    is absent with fewer, or when the oldest total used is at most zero.
    The annual totals are what pandas' sum gives for the payments of
    each calendar year, whatever that sum is.  For the totals 10, 10,
    10, 10, 20 it is ((20/10) ** 0.2 - 1) * 100, about 14.87 once the
    power is the double nearest the fifth root of 2. *)
Theorem dividend_growth_5yr_formula (pow : float -> float -> float)
    (ssum : list float -> float)
    (yf : string -> Stock) (t : string) (inf : Info)
    (divs : list (Z * float)) :
  info (yf t) = Some inf -> is_Some (info_shortName inf) ->
  dividends (yf t) = Some divs ->
  exists a, get_stock_data pow ssum yf t = Some a /\
    let annual := resample_YE_sum ssum divs in
    ((List.length annual < 5)%nat -> dividend_growth_5yr a = None) /\
    (forall oldest,
       nth_error annual (List.length annual - 5) = Some oldest ->
       le oldest 0 = true -> dividend_growth_5yr a = None) /\
    (forall oldest newest,
       (5 <= List.length annual)%nat ->
       nth_error annual (List.length annual - 5) = Some oldest ->
       nth_error annual (List.length annual - 1) = Some newest ->
       gt oldest 0 = true ->
       dividend_growth_5yr a
         = Some ((pow (newest / oldest) 0.2 - 1) * 100)%float) /\
    (annual = [10; 10; 10; 10; 20]%float ->
       dividend_growth_5yr a = Some ((pow (20 / 10) 0.2 - 1) * 100)%float /\
       (pow 2%float 0.2%float = 0x1.2611186bae675p+0%float ->
        exists g, dividend_growth_5yr a = Some g /\
          lt 14.86 g = true /\ lt g 14.88 = true)).
Proof.
  intros Hinfo Hname Hdivs.
  destruct (get_stock_data_some pow ssum yf t inf Hinfo Hname)
    as (a & Ha & _ & Hg & _).
  exists a. split; [exact Ha|]. intros annual. rewrite Hg.
  assert (Hex : annual = [10; 10; 10; 10; 20]%float ->
                derive_dividend_growth_5yr pow ssum (yf t)
                = Some ((pow (20 / 10) 0.2 - 1) * 100)%float).
  { intros Hann.
    rewrite (derive_dividend_growth_long pow ssum _ divs 10 20 Hdivs);
      fold annual; rewrite ?Hann; first [reflexivity | simpl; lia]. }
  split; [|split; [|split]].
  - intros Hlen. exact (derive_dividend_growth_short pow ssum _ divs Hdivs Hlen).
  - intros oldest Hold Hle.
    destruct (Nat.lt_ge_cases (List.length annual) 5) as [Hlen|Hlen].
    + exact (derive_dividend_growth_short pow ssum _ divs Hdivs Hlen).
    + assert (Hnew : exists newest,
                 nth_error annual (List.length annual - 1) = Some newest).
      { destruct (nth_error annual (List.length annual - 1)) eqn:E;
          [eauto|]. apply nth_error_None in E. lia. }
      destruct Hnew as [newest Hnew].
      rewrite (derive_dividend_growth_long pow ssum _ divs oldest newest
                 Hdivs Hlen Hold Hnew).
      now rewrite (le_zero_not_gt oldest Hle).
  - intros oldest newest Hlen Hold Hnew Hgt.
    rewrite (derive_dividend_growth_long pow ssum _ divs oldest newest
               Hdivs Hlen Hold Hnew).
    now rewrite Hgt.
  - intros Hann. split; [exact (Hex Hann)|].
    intros Hpow. eexists. split; [exact (Hex Hann)|].
    change (20 / 10)%float with 2%float. rewrite Hpow. split; reflexivity.
Qed.

Lemma dividend_growth_5yr_formula_witness :
  exists a, get_stock_data sample_pow sample_sum (fun _ => sample_stock) "ACME" = Some a /\
    exists g, dividend_growth_5yr a = Some g /\
      lt 14.86 g = true /\ lt g 14.88 = true.
Proof.
  destruct (dividend_growth_5yr_formula sample_pow sample_sum (fun _ => sample_stock)
              "ACME" _ _ eq_refl (ex_intro _ _ eq_refl) eq_refl)
    as (a & Ha & _ & _ & _ & Hex).
  exists a. split; [exact Ha|].
  destruct (Hex eq_refl) as [_ Habout]. apply Habout. reflexivity.
Defined.

(** *** Zero-valued provider fields *)

Lemma derive_percent_zero (inf : Info) (key : string)
    (z : float) :
  get_float inf key = Some z -> PrimFloat.eqb z 0 = true ->
  derive_percent inf key = Some z.
Proof. intros Hk Hz. unfold derive_percent, truthy. now rewrite Hk, Hz. Qed.

Lemma derive_payout_ratio_zero (inf : Info) (z : float) :
  get_float inf "payoutRatio" = Some z -> PrimFloat.eqb z 0 = true ->
  derive_payout_ratio inf = Some z.
Proof. intros Hk Hz. unfold derive_payout_ratio, truthy. now rewrite Hk, Hz. Qed.

Lemma derive_debt_to_equity_zero (inf : Info) (z : float) :
  get_float inf "debtToEquity" = Some z -> PrimFloat.eqb z 0 = true ->
  derive_debt_to_equity inf = Some z.
Proof.
  intros Hk Hz. unfold derive_debt_to_equity, truthy. now rewrite Hk, Hz.
Qed.

(** C8: a metric that is present but exactly zero is treated as an absent
    one.  The evaluator gives the same score, flags and verdict as for the
    analysis without that metric; a zero yield gives "No dividend data"
    and no low-yield flag; and the deriver leaves a zero payout ratio,
    debt/equity, return on equity or profit margin as the provider gave
    it, without the unit conversion. *)
Theorem zero_metric_read_as_absent :
  (forall a a' c, zeros_for_absent a a' ->
     exists r r',
       screen_stock (Some a) c = Some r /\
       screen_stock (Some a') c = Some r' /\
       score r = score r' /\ flags r = flags r' /\
       passes_screen r = passes_screen r') /\
  (forall a c z, dividend_yield a = Some z -> PrimFloat.eqb z 0 = true ->
     exists r, screen_stock (Some a) c = Some r /\
       In "No dividend data" (flags r) /\ low_yield_flags (flags r) = []) /\
  (forall pow ssum yf t inf,
     info (yf t) = Some inf -> is_Some (info_shortName inf) ->
     exists a, get_stock_data pow ssum yf t = Some a /\
       (forall z, get_float inf "payoutRatio" = Some z ->
          PrimFloat.eqb z 0 = true -> payout_ratio a = Some z) /\
       (forall z, get_float inf "debtToEquity" = Some z ->
          PrimFloat.eqb z 0 = true -> debt_to_equity a = Some z) /\
       (forall z, get_float inf "returnOnEquity" = Some z ->
          PrimFloat.eqb z 0 = true -> roe a = Some z) /\
       (forall z, get_float inf "profitMargins" = Some z ->
          PrimFloat.eqb z 0 = true -> profit_margin a = Some z)).
Proof.
  split; [exact screen_stock_zeros_for_absent|].
  split; [exact screen_stock_zero_yield|].
  intros pow ssum yf t inf Hinfo Hname.
  destruct (get_stock_data_some pow ssum yf t inf Hinfo Hname)
    as (a & Ha & Hp & _ & _ & Hd & _ & Hroe & Hpm).
  exists a. split; [exact Ha|].
  rewrite Hp, Hd, Hroe, Hpm. repeat split; intros z Hk Hz.
  - exact (derive_payout_ratio_zero inf z Hk Hz).
  - exact (derive_debt_to_equity_zero inf z Hk Hz).
  - exact (derive_percent_zero inf _ z Hk Hz).
  - exact (derive_percent_zero inf _ z Hk Hz).
Qed.

Lemma zero_metric_read_as_absent_witness :
  (exists r r',
     screen_stock (Some sample_yield_0) default_criteria = Some r /\
     screen_stock (Some sample_yield_none) default_criteria = Some r' /\
     score r = score r' /\ flags r = flags r' /\
     passes_screen r = passes_screen r') /\
  (exists r, screen_stock (Some sample_yield_0) default_criteria = Some r /\
     In "No dividend data" (flags r) /\ low_yield_flags (flags r) = []) /\
  (exists a,
     get_stock_data sample_pow sample_sum (fun _ => sample_stock_zeros) "ACME" = Some a /\
     payout_ratio a = Some 0%float /\ debt_to_equity a = Some 0%float).
Proof.
  destruct zero_metric_read_as_absent as (Habsent & Hyield & Hderive).
  split; [|split].
  - apply Habsent. unfold zeros_for_absent, zero_for_absent.
    repeat split; try (left; reflexivity);
      right; eexists; repeat split; reflexivity.
  - apply (Hyield sample_yield_0 default_criteria 0%float); reflexivity.
  - destruct (Hderive sample_pow sample_sum (fun _ => sample_stock_zeros) "ACME" _
                eq_refl (ex_intro _ _ eq_refl))
      as (a & Ha & Hp & Hd & _).
    exists a. split; [exact Ha|]. split.
    + apply Hp; reflexivity.
    + apply Hd; reflexivity.
Defined.

(** ** Properties of the watchlist files *)

Lemma string_append_assoc (s1 s2 s3 : string) :
  s1 ++ (s2 ++ s3) = (s1 ++ s2) ++ s3.
Proof.
  induction s1 as [|ch s1 IH]; [reflexivity|].
  change (String ch (s1 ++ (s2 ++ s3)) = String ch ((s1 ++ s2) ++ s3)).
  now f_equal.
Qed.

Lemma free_of_append (c : ascii) (s1 s2 : string) :
  free_of c (s1 ++ s2) = free_of c s1 && free_of c s2.
Proof.
  induction s1 as [|ch s1 IH]; simpl; [reflexivity|].
  now rewrite IH, andb_assoc.
Qed.

Lemma no_space_free_of_blank (c : ascii) (s : string) :
  is_space c = true -> no_space s = true -> free_of c s = true.
Proof.
  intros Hc. induction s as [|ch s IH]; simpl; [reflexivity|].
  intros [Hch Hs]%andb_true_iff. rewrite (IH Hs), andb_true_r.
  destruct (Ascii.eqb_spec ch c) as [->|]; [|reflexivity].
  rewrite Hc in Hch. discriminate Hch.
Qed.

Lemma readlines_line (l rest : string) :
  free_of newline l = true ->
  readlines (l ++ String newline rest)
  = (l ++ String newline "") :: readlines rest.
Proof.
  induction l as [|ch l IH]; simpl; [reflexivity|].
  intros [Hch Hl]%andb_true_iff. apply negb_true_iff in Hch.
  now rewrite Hch, (IH Hl).
Qed.

Lemma universal_newlines_id (s : string) :
  free_of carriage_return s = true -> universal_newlines s = s.
Proof.
  induction s as [|ch s IH]; simpl; [reflexivity|].
  intros [Hch Hs]%andb_true_iff. apply negb_true_iff in Hch.
  now rewrite Hch, (IH Hs).
Qed.

Lemma rstrip_cons (ch : ascii) (s : string) :
  rstrip (String ch s) =
    match rstrip s with
    | EmptyString => if is_space ch then EmptyString else String ch EmptyString
    | r => String ch r
    end.
Proof. reflexivity. Qed.

(** What [strip] and [split] make of a plain ticker and its line. *)
Lemma rstrip_plain_line (t : string) :
  no_space t = true -> rstrip (t ++ String newline "") = t.
Proof.
  induction t as [|ch t IH]; [reflexivity|].
  cbn [no_space]. intros [Hch Ht]%andb_true_iff.
  apply negb_true_iff in Hch.
  change (String ch t ++ String newline "")
    with (String ch (t ++ String newline "")).
  rewrite rstrip_cons, (IH Ht), Hch.
  destruct t; reflexivity.
Qed.

Lemma strip_plain_line (t : string) :
  no_space t = true -> strip (t ++ String newline "") = t.
Proof.
  intros Ht. unfold strip. destruct t as [|ch t]; [reflexivity|].
  pose proof Ht as Hall. cbn [no_space] in Ht.
  apply andb_true_iff in Ht as [Hch _]. apply negb_true_iff in Hch.
  change (String ch t ++ String newline "")
    with (String ch (t ++ String newline "")).
  change (lstrip (String ch (t ++ String newline "")))
    with (if is_space ch then lstrip (t ++ String newline "")
          else String ch (t ++ String newline "")).
  rewrite Hch.
  exact (rstrip_plain_line (String ch t) Hall).
Qed.

Lemma split_cons (ch : ascii) (s : string) :
  is_space ch = false ->
  split (String ch s) =
    match s with
    | EmptyString => [String ch EmptyString]
    | String ch' _ =>
        if is_space ch' then String ch EmptyString :: split s
        else
          match split s with
          | w :: ws => String ch w :: ws
          | [] => [String ch EmptyString]
          end
    end.
Proof.
  intros Hch.
  change (split (String ch s)) with
    (if is_space ch then split s
     else
       match s with
       | EmptyString => [String ch EmptyString]
       | String ch' _ =>
           if is_space ch' then String ch EmptyString :: split s
           else
             match split s with
             | w :: ws => String ch w :: ws
             | [] => [String ch EmptyString]
             end
       end).
  now rewrite Hch.
Qed.

Lemma split_plain (ch : ascii) (t : string) :
  no_space (String ch t) = true -> split (String ch t) = [String ch t].
Proof.
  revert ch. induction t as [|ch' t IH]; intros ch;
    cbn [no_space]; intros [Hch Ht]%andb_true_iff;
    apply negb_true_iff in Hch; rewrite (split_cons _ _ Hch); [reflexivity|].
  pose proof Ht as Hall. cbn [no_space] in Ht.
  apply andb_true_iff in Ht as [Hch' _]. apply negb_true_iff in Hch'.
  now rewrite Hch', (IH ch' Hall).
Qed.

Lemma load_lines_plain (upper : string -> string)
    (tickers acc : list string) :
  forallb plain_ticker tickers = true ->
  load_lines upper (List.map (fun t => t ++ String newline "") tickers) acc
  = Ok (acc ++ List.map upper tickers)%list.
Proof.
  revert acc. induction tickers as [|t ts IH]; intros acc; cbn [forallb List.map].
  - intros _. cbn. now rewrite app_nil_r.
  - intros [Ht Hts]%andb_true_iff. unfold plain_ticker in Ht.
    apply andb_true_iff in Ht as [[Hne Hns]%andb_true_iff Hhash].
    cbn [load_lines]. rewrite (strip_plain_line t Hns), Hne, Hhash.
    cbn [andb]. destruct t as [|ch t]; [discriminate Hne|].
    rewrite (split_plain ch t Hns), (IH _ Hts). now rewrite <- app_assoc.
Qed.

Lemma readlines_write_tickers (tickers : list string) :
  forallb plain_ticker tickers = true ->
  readlines (write_tickers tickers)
  = List.map (fun t => t ++ String newline "") tickers.
Proof.
  induction tickers as [|t ts IH]; cbn [forallb write_tickers List.map];
    [reflexivity|].
  intros [Ht Hts]%andb_true_iff. unfold plain_ticker in Ht.
  apply andb_true_iff in Ht as [[_ Hns]%andb_true_iff _].
  rewrite readlines_line, (IH Hts); [reflexivity|].
  now apply no_space_free_of_blank.
Qed.

Lemma free_of_write_tickers (c : ascii) (tickers : list string) :
  is_space c = true -> Ascii.eqb newline c = false ->
  forallb plain_ticker tickers = true ->
  free_of c (write_tickers tickers) = true.
Proof.
  intros Hc Hnl. induction tickers as [|t ts IH];
    cbn [forallb write_tickers]; [reflexivity|].
  intros [Ht Hts]%andb_true_iff. unfold plain_ticker in Ht.
  apply andb_true_iff in Ht as [[_ Hns]%andb_true_iff _].
  rewrite free_of_append. cbn [free_of].
  now rewrite (no_space_free_of_blank c t Hc Hns), Hnl, (IH Hts).
Qed.

(** The timestamp has digits and separators only. *)
Lemma free_of_uint (c : ascii) (u : Decimal.uint) :
  is_space c = true -> free_of c (NilEmpty.string_of_uint u) = true.
Proof.
  intros Hc.
  induction u as [|u IH|u IH|u IH|u IH|u IH|u IH|u IH|u IH|u IH|u IH];
    cbn [NilEmpty.string_of_uint free_of]; [reflexivity|..];
    rewrite IH, andb_true_r; apply negb_true_iff;
    match goal with
    | |- Ascii.eqb ?d c = false =>
        destruct (Ascii.eqb_spec d c) as [<-|]; [discriminate Hc | reflexivity]
    end.
Qed.

Lemma free_of_string_of_N (c : ascii) (n : Z) :
  is_space c = true -> free_of c (string_of_N n) = true.
Proof.
  intros Hc. unfold string_of_N, NilZero.string_of_uint.
  destruct (N.to_uint (Z.to_N n)) eqn:E; try apply (free_of_uint c _ Hc).
  cbn [free_of]. rewrite andb_true_r. apply negb_true_iff.
  destruct (Ascii.eqb_spec "0"%char c) as [<-|];
    [discriminate Hc | reflexivity].
Qed.

Lemma free_of_zfill (c : ascii) (d : nat) (n : Z) :
  is_space c = true -> free_of c (zfill d (string_of_N n)) = true.
Proof.
  intros Hc. unfold zfill. rewrite free_of_append, free_of_string_of_N by easy.
  rewrite andb_true_r.
  induction (d - String.length (string_of_N n))%nat as [|k IH];
    cbn [zeros free_of]; [reflexivity|].
  rewrite IH, andb_true_r. apply negb_true_iff.
  destruct (Ascii.eqb_spec "0"%char c) as [<-|];
    [discriminate Hc | reflexivity].
Qed.

Lemma free_of_strftime (c : ascii) (t : Timestamp) :
  c = newline \/ c = carriage_return -> free_of c (strftime t) = true.
Proof.
  intros Hc. unfold strftime.
  assert (Hsp : is_space c = true) by (destruct Hc as [->| ->]; reflexivity).
  rewrite !free_of_append, !free_of_zfill by exact Hsp.
  destruct Hc as [->| ->]; reflexivity.
Qed.

Lemma free_of_watchlist_text (tickers : list string) (t : Timestamp) :
  forallb plain_ticker tickers = true ->
  free_of carriage_return (watchlist_text tickers t) = true.
Proof.
  intros Hplain. unfold watchlist_text.
  rewrite free_of_append. cbn [free_of].
  rewrite !free_of_append. cbn [free_of].
  rewrite free_of_strftime by now right.
  rewrite free_of_write_tickers by easy. reflexivity.
Qed.

(** A line that opens with [#] is skipped, whatever follows. *)
Lemma comment_line_skipped (upper : string -> string) (s : string)
    (rest acc : list string) :
  load_lines upper (String "#" s :: rest) acc = load_lines upper rest acc.
Proof.
  cbn [load_lines]. unfold strip.
  change (lstrip (String "#" s)) with (String "#" s).
  rewrite rstrip_cons. destruct (rstrip s); reflexivity.
Qed.

Lemma readlines_watchlist_text (tickers : list string) (t : Timestamp) :
  forallb plain_ticker tickers = true ->
  readlines (watchlist_text tickers t)
  = ("# Stock Watchlist" ++ String newline "")
    :: (("# Generated on " ++ strftime t) ++ String newline "")
    :: String newline ""
    :: List.map (fun ticker => ticker ++ String newline "") tickers.
Proof.
  intros Hplain. unfold watchlist_text.
  rewrite readlines_line by reflexivity. f_equal.
  rewrite string_append_assoc.
  rewrite readlines_line.
  - f_equal. change (readlines (String newline (write_tickers tickers)))
      with (String newline "" :: readlines (write_tickers tickers)).
    now rewrite readlines_write_tickers.
  - rewrite free_of_append, free_of_strftime by now left. reflexivity.
Qed.

Lemma string_append_nil_r (s : string) : s ++ "" = s.
Proof.
  induction s as [|ch s IH]; [reflexivity|].
  change (String ch (s ++ "") = String ch s). now f_equal.
Qed.

(** What the writes of the ticker lines add when all of them go
    through. *)
Lemma write_each_lines (enc : ascii -> bool) (tickers : list string)
    (acc written : string) :
  write_each enc (List.map (fun t => t ++ String newline "") tickers) acc
  = (written, true) ->
  written = acc ++ write_tickers tickers.
Proof.
  revert acc. induction tickers as [|t ts IH]; intros acc;
    cbn [List.map write_each write_tickers].
  - intros [= <-]. now rewrite string_append_nil_r.
  - destruct (can_encode enc (t ++ String newline "")); [|discriminate].
    intros H. apply IH in H. rewrite H.
    rewrite <- !string_append_assoc. reflexivity.
Qed.

(** A save that returns has written the whole text. *)
Lemma save_watchlist_returns (tickers : list string) (filename : string)
    (w w' : World) :
  save_watchlist tickers filename w = (Return tt, w') ->
  (filename ∉ unwritable w) /\
  w' = print ("Saved " ++ string_of_N (Z.of_nat (List.length tickers))
              ++ " tickers to " ++ filename)
         (write_file filename (Text (watchlist_text tickers (now w))) w).
Proof.
  unfold save_watchlist.
  destruct (bool_decide_reflect (filename ∈ unwritable w)) as [|Hw];
    [discriminate|].
  unfold watchlist_writes. cbn [write_each].
  destruct (can_encode (encodable w) ("# Stock Watchlist" ++ _));
    [|discriminate].
  destruct (can_encode (encodable w) ("# Generated on " ++ _));
    [|discriminate].
  destruct (write_each _ _ _) as [written done] eqn:E.
  destruct done; [|discriminate].
  apply write_each_lines in E. intros [= <-]. split; [exact Hw|].
  subst written. unfold watchlist_text.
  rewrite <- !string_append_assoc. reflexivity.
Qed.

Lemma load_after_save (upper : string -> string) (tickers : list string)
    (filename : string) (w w' : World) :
  forallb plain_ticker tickers = true ->
  save_watchlist tickers filename w = (Return tt, w') ->
  filename ∉ unreadable w' ->
  fst (load_watchlist upper filename w') = Return (List.map upper tickers).
Proof.
  intros Hplain Hsave Hread.
  apply save_watchlist_returns in Hsave as [_ ->]. unfold load_watchlist.
  cbn [files unreadable print write_file] in Hread |- *.
  rewrite lookup_insert_eq. rewrite bool_decide_eq_false_2 by exact Hread.
  rewrite universal_newlines_id by now apply free_of_watchlist_text.
  rewrite (readlines_watchlist_text tickers (now w) Hplain).
  change (("# Stock Watchlist" ++ String newline ""))
    with (String "#" (" Stock Watchlist" ++ String newline "")).
  change (("# Generated on " ++ strftime (now w)) ++ String newline "")
    with (String "#" ((" Generated on " ++ strftime (now w))
                      ++ String newline "")).
  rewrite !comment_line_skipped.
  change (load_lines upper (String newline "" :: ?l) [])
    with (load_lines upper l []).
  rewrite (load_lines_plain upper tickers [] Hplain). reflexivity.
Qed.

(** C10, as the code has it: for tickers that are not empty, hold no
    whitespace character and do not start with [#], when saving the list
    returns and the file can be opened for reading, loading it gives the
    same tickers in the same order, in upper case, whatever [str.upper]
    makes of them. *)
Theorem watchlist_roundtrip_plain (upper : string -> string)
    (tickers : list string) :
  forallb plain_ticker tickers = true -> watchlist_roundtrip upper tickers.
Proof.
  intros Hplain filename w w' Hsave Hread.
  exact (load_after_save upper tickers filename w w' Hplain Hsave Hread).
Qed.

Lemma watchlist_roundtrip_plain_witness :
  fst (load_watchlist sample_upper "watchlist.txt"
         (snd (save_watchlist ["jnj"; "PG"; "ko"] "watchlist.txt"
                 sample_world)))
  = Return ["JNJ"; "PG"; "KO"].
Proof.
  apply (watchlist_roundtrip_plain sample_upper ["jnj"; "PG"; "ko"] eq_refl
           "watchlist.txt" sample_world).
  - reflexivity.
  - vm_compute. discriminate.
Defined.

(** The round trip does not hold for every list of tickers: of a ticker
    with a blank only the first word comes back. *)
Lemma watchlist_roundtrip_fails_on_blank :
  ~ watchlist_roundtrip sample_upper ["BRK B"].
Proof.
  intros H.
  specialize (H "watchlist.txt" sample_world _ eq_refl
                ltac:(vm_compute; discriminate)).
  vm_compute in H. discriminate H.
Qed.

(** ** Further properties of the Rule Evaluator *)

(** *** Every flag costs points *)

Section FlagCost.
Variable a : StockAnalysis.
Variable c : ScreeningCriteria.

Ltac cost_cases :=
  split_ifs; cbn [t_score t_flags add_score append_flag tally0 app length];
  lia.

Lemma check_dividend_yield_cost :
  t_score (check_dividend_yield a c tally0)
  + 2 * Z.of_nat (length (t_flags (check_dividend_yield a c tally0))) <= 2.
Proof. unfold check_dividend_yield. cost_cases. Qed.

Lemma check_payout_ratio_cost :
  t_score (check_payout_ratio a c tally0)
  + 2 * Z.of_nat (length (t_flags (check_payout_ratio a c tally0))) <= 2.
Proof. unfold check_payout_ratio. cost_cases. Qed.

Lemma check_dividend_growth_cost :
  t_score (check_dividend_growth a tally0)
  + 2 * Z.of_nat (length (t_flags (check_dividend_growth a tally0))) <= 3.
Proof. unfold check_dividend_growth. cost_cases. Qed.

Lemma check_interest_coverage_cost :
  t_score (check_interest_coverage a c tally0)
  + 2 * Z.of_nat (length (t_flags (check_interest_coverage a c tally0))) <= 2.
Proof. unfold check_interest_coverage. cost_cases. Qed.

Lemma check_debt_to_equity_cost :
  t_score (check_debt_to_equity a c tally0)
  + 2 * Z.of_nat (length (t_flags (check_debt_to_equity a c tally0))) <= 2.
Proof. unfold check_debt_to_equity. cost_cases. Qed.

Lemma check_roic_roe_cost :
  t_score (check_roic_roe a c tally0)
  + 2 * Z.of_nat (length (t_flags (check_roic_roe a c tally0))) <= 2.
Proof. unfold check_roic_roe. cost_cases. Qed.

Lemma check_valuation_cost :
  t_score (check_valuation a c tally0)
  + 2 * Z.of_nat (length (t_flags (check_valuation a c tally0))) <= 2.
Proof. unfold check_valuation. cost_cases. Qed.

Lemma check_expected_return_cost :
  t_score (check_expected_return a c tally0)
  + 2 * Z.of_nat (length (t_flags (check_expected_return a c tally0))) <= 2.
Proof. unfold check_expected_return. cost_cases. Qed.

Lemma run_checks_cost :
  t_score (run_checks a c)
  + 2 * Z.of_nat (length (t_flags (run_checks a c))) <= 17.
Proof.
  rewrite run_checks_score, run_checks_flags, !length_app.
  pose proof check_dividend_yield_cost. pose proof check_payout_ratio_cost.
  pose proof check_dividend_growth_cost.
  pose proof check_interest_coverage_cost.
  pose proof check_debt_to_equity_cost. pose proof check_roic_roe_cost.
  pose proof check_valuation_cost. pose proof check_expected_return_cost.
  lia.
Qed.
End FlagCost.

(** X1: The score is never negative.  A check that raises a flag adds no
    point, so every flag costs at least the 2 points its check could have
    given: the score and twice the number of flags never add up to more
    than 17, and a stock that passes carries at most four flags. *)
Theorem screen_stock_flags_cost (a : StockAnalysis) (c : ScreeningCriteria) :
  exists r, screen_stock (Some a) c = Some r /\
    0 <= score r /\
    score r + 2 * Z.of_nat (length (flags r)) <= 17 /\
    (passes_screen r = true -> (length (flags r) <= 4)%nat).
Proof.
  destruct (screen_stock_some a c) as (r & Hr & Hsc & Hfl & Hp).
  exists r. split; [exact Hr|].
  pose proof (run_checks_cost a c) as Hcost. rewrite <- Hsc, <- Hfl in Hcost.
  split; [rewrite Hsc; apply run_checks_score_range|].
  split; [exact Hcost|].
  intros Hpass. rewrite Hp in Hpass.
  apply pass_verdict_iff in Hpass as [H8 _]. lia.
Qed.

(** *** Screening again *)

(** X4: Screening reads the sector and the metrics only: an analysis that was
    screened before, under any criteria, is screened as if it were fresh.
    Flags do not pile up and screening twice changes nothing. *)
Theorem screen_stock_again (a : StockAnalysis) (c1 c2 : ScreeningCriteria) :
  screen_stock (screen_stock (Some a) c1) c2 = screen_stock (Some a) c2 /\
  screen_stock (screen_stock (Some a) c2) c2 = screen_stock (Some a) c2.
Proof.
  assert (H : forall c, screen_stock (screen_stock (Some a) c) c2
                        = screen_stock (Some a) c2).
  { intros c. destruct (screen_stock_some a c) as (r & Hr & _).
    rewrite Hr. unfold screen_stock in Hr. injection Hr as <-.
    reflexivity. }
  split; apply H.
Qed.

(** *** Which flags veto a pass *)

(** A string without the first character of [sub] does not contain it. *)
Lemma free_of_no_contains (ch : ascii) (sub s : string) :
  free_of ch s = true -> contains (String ch sub) s = false.
Proof.
  induction s as [|x s IH]; [reflexivity|].
  cbn [free_of]. intros [Hx Hs]%andb_true_iff. apply negb_true_iff in Hx.
  change (contains (String ch sub) (String x s))
    with ((Ascii.eqb ch x && startswith s sub)
          || contains (String ch sub) s).
  rewrite (IH Hs), Ascii.eqb_sym, Hx. reflexivity.
Qed.

(** A formatted number has digits, a sign, a point, or spells nan or inf. *)
Lemma free_of_uint_nondigit (ch : ascii) (u : Decimal.uint) :
  is_digit ch = false -> free_of ch (NilEmpty.string_of_uint u) = true.
Proof.
  intros Hc.
  induction u as [|u IH|u IH|u IH|u IH|u IH|u IH|u IH|u IH|u IH|u IH];
    cbn [NilEmpty.string_of_uint free_of]; [reflexivity|..];
    rewrite IH, andb_true_r; apply negb_true_iff;
    match goal with
    | |- Ascii.eqb ?d ch = false =>
        destruct (Ascii.eqb_spec d ch) as [<-|]; [discriminate Hc | reflexivity]
    end.
Qed.

Lemma free_of_string_of_N_nondigit (ch : ascii) (n : Z) :
  is_digit ch = false -> free_of ch (string_of_N n) = true.
Proof.
  intros Hc. unfold string_of_N, NilZero.string_of_uint.
  destruct (N.to_uint (Z.to_N n)) eqn:E;
    try apply (free_of_uint_nondigit ch _ Hc).
  cbn [free_of]. rewrite andb_true_r. apply negb_true_iff.
  destruct (Ascii.eqb_spec "0"%char ch) as [<-|];
    [discriminate Hc | reflexivity].
Qed.

Lemma free_of_zeros_nondigit (ch : ascii) (n : nat) :
  is_digit ch = false -> free_of ch (zeros n) = true.
Proof.
  intros Hc. induction n as [|n IH]; cbn [zeros free_of]; [reflexivity|].
  rewrite IH, andb_true_r. apply negb_true_iff.
  destruct (Ascii.eqb_spec "0"%char ch) as [<-|];
    [discriminate Hc | reflexivity].
Qed.

Lemma free_of_fixed_digits (ch : ascii) (d : nat) (n : Z) :
  is_digit ch = false -> Ascii.eqb "."%char ch = false ->
  free_of ch (fixed_digits d n) = true.
Proof.
  intros Hc Hdot. unfold fixed_digits, zfill.
  rewrite free_of_append, free_of_string_of_N_nondigit by exact Hc.
  destruct d as [|d]; [reflexivity|].
  rewrite !free_of_append, free_of_zeros_nondigit,
    free_of_string_of_N_nondigit by exact Hc.
  cbn [free_of]. now rewrite Hdot.
Qed.

Lemma free_of_format_fixed (ch : ascii) (d : nat) (x : float) :
  is_digit ch = false -> free_of ch "-.nanif" = true ->
  free_of ch (format_fixed d x) = true.
Proof.
  intros Hc Hother. cbn [free_of] in Hother.
  destruct (Ascii.eqb "-"%char ch) eqn:Eminus; [discriminate Hother|].
  destruct (Ascii.eqb "."%char ch) eqn:Edot; [discriminate Hother|].
  destruct (Ascii.eqb "n"%char ch) eqn:En; [discriminate Hother|].
  destruct (Ascii.eqb "a"%char ch) eqn:Ea; [discriminate Hother|].
  destruct (Ascii.eqb "i"%char ch) eqn:Ei; [discriminate Hother|].
  destruct (Ascii.eqb "f"%char ch) eqn:Ef; [discriminate Hother|].
  assert (Hsign : forall s, free_of ch (sign_prefix s) = true).
  { intros [|]; cbn [sign_prefix free_of]; [now rewrite Eminus | reflexivity]. }
  unfold format_fixed. destruct (Prim2SF x) as [s|s| |s m e].
  - now rewrite free_of_append, Hsign, free_of_fixed_digits.
  - rewrite free_of_append, Hsign. cbn [free_of]. now rewrite Ei, En, Ef.
  - cbn [free_of]. now rewrite En, Ea.
  - now rewrite free_of_append, Hsign, free_of_fixed_digits.
Qed.

(** A flag made of a label, a formatted number and a tail vetoes nothing
    when neither "W" nor "A" occurs in the label or the tail. *)
Lemma plain_flag_no_veto (label tail : string) (d : nat) (x : float) :
  free_of "W" label = true -> free_of "A" label = true ->
  free_of "W" tail = true -> free_of "A" tail = true ->
  disqualifying (label ++ format_fixed d x ++ tail) = false.
Proof.
  intros HW HA HWt HAt. unfold disqualifying. apply orb_false_iff. split.
  - apply free_of_no_contains.
    now rewrite !free_of_append, HW, HWt, free_of_format_fixed.
  - apply free_of_no_contains.
    now rewrite !free_of_append, HA, HAt, free_of_format_fixed.
Qed.

Lemma plain_flag_no_veto_end (label : string) (d : nat) (x : float) :
  free_of "W" label = true -> free_of "A" label = true ->
  disqualifying (label ++ format_fixed d x) = false.
Proof.
  intros HW HA. unfold disqualifying. apply orb_false_iff. split.
  - apply free_of_no_contains.
    now rewrite free_of_append, HW, free_of_format_fixed.
  - apply free_of_no_contains.
    now rewrite free_of_append, HA, free_of_format_fixed.
Qed.

Lemma startswith_append_l (sub s1 s2 : string) :
  startswith s1 sub = true -> startswith (s1 ++ s2) sub = true.
Proof.
  revert s1. induction sub as [|x sub IH]; intros s1.
  { intros _. destruct s1, s2; reflexivity. }
  destruct s1 as [|y s1]; [discriminate|].
  change (String y s1 ++ s2) with (String y (s1 ++ s2)).
  cbn [startswith]. intros [Hxy Hrest]%andb_true_iff.
  now rewrite Hxy, (IH s1 Hrest).
Qed.

Lemma contains_append_l (sub s1 s2 : string) :
  contains sub s1 = true -> contains sub (s1 ++ s2) = true.
Proof.
  induction s1 as [|y s1 IH].
  - destruct sub; [destruct s2; reflexivity | discriminate].
  - change (String y s1 ++ s2) with (String y (s1 ++ s2)).
    change (contains sub (String y s1))
      with (startswith (String y s1) sub || contains sub s1).
    change (contains sub (String y (s1 ++ s2)))
      with (startswith (String y (s1 ++ s2)) sub || contains sub (s1 ++ s2)).
    intros [Hs|Hc]%orb_true_iff.
    + change (String y (s1 ++ s2)) with (String y s1 ++ s2).
      now rewrite (startswith_append_l sub (String y s1) s2 Hs).
    + rewrite (IH Hc). apply orb_true_r.
Qed.

Lemma veto_flags_app (l1 l2 : list string) :
  veto_flags (l1 ++ l2) = (veto_flags l1 ++ veto_flags l2)%list.
Proof. apply List.filter_app. Qed.

Section Veto.
Variable a : StockAnalysis.
Variable c : ScreeningCriteria.

Ltac no_veto :=
  split_ifs; try reflexivity;
  cbn [t_flags append_flag tally0 app veto_flags List.filter];
  first [ rewrite plain_flag_no_veto by reflexivity
        | rewrite plain_flag_no_veto_end by reflexivity ];
  reflexivity.

Lemma check_dividend_growth_no_veto :
  veto_flags (t_flags (check_dividend_growth a tally0)) = [].
Proof. unfold check_dividend_growth. no_veto. Qed.

Lemma check_interest_coverage_no_veto :
  veto_flags (t_flags (check_interest_coverage a c tally0)) = [].
Proof. unfold check_interest_coverage. no_veto. Qed.

Lemma check_debt_to_equity_no_veto :
  veto_flags (t_flags (check_debt_to_equity a c tally0)) = [].
Proof. unfold check_debt_to_equity. no_veto. Qed.

Lemma check_roic_roe_no_veto :
  veto_flags (t_flags (check_roic_roe a c tally0)) = [].
Proof. unfold check_roic_roe. no_veto. Qed.

Lemma check_valuation_no_veto :
  veto_flags (t_flags (check_valuation a c tally0)) = [].
Proof. unfold check_valuation. no_veto. Qed.

Lemma check_expected_return_no_veto :
  veto_flags (t_flags (check_expected_return a c tally0)) = [].
Proof. unfold check_expected_return. no_veto. Qed.

(** The yield check vetoes exactly in its yield-trap branch. *)
Lemma check_dividend_yield_veto :
  length (veto_flags (t_flags (check_dividend_yield a c tally0)))
  = if yield_trap a c then 1%nat else 0%nat.
Proof.
  unfold check_dividend_yield, yield_trap.
  destruct (truthy (dividend_yield a)) as [y|]; [|reflexivity].
  destruct (lt y (min_dividend_yield c)).
  - cbn [t_flags append_flag tally0 app veto_flags List.filter negb andb].
    now rewrite plain_flag_no_veto by reflexivity.
  - destruct (gt y (max_dividend_yield c)); reflexivity.
Qed.

(** The payout check vetoes exactly in its dividend-at-risk branch. *)
Lemma check_payout_ratio_veto :
  length (veto_flags (t_flags (check_payout_ratio a c tally0)))
  = if payout_at_risk a c then 1%nat else 0%nat.
Proof.
  unfold check_payout_ratio, payout_at_risk, payout_ceiling.
  destruct (truthy (payout_ratio a)) as [p|]; [|reflexivity].
  cbv zeta.
  destruct (gt p (if is_high_leverage_sector (sector a)
                  then max_payout_ratio_reit c else max_payout_ratio c)).
  - cbn [t_flags append_flag tally0 app veto_flags List.filter negb andb].
    now rewrite plain_flag_no_veto by reflexivity.
  - destruct (gt p 90); [|reflexivity].
    cbn [t_flags append_flag tally0 app veto_flags List.filter negb andb].
    unfold disqualifying.
    rewrite (contains_append_l "AT RISK" "DIVIDEND AT RISK: Payout ratio ")
      by reflexivity.
    now rewrite orb_true_r.
Qed.

Lemma run_checks_veto :
  length (veto_flags (t_flags (run_checks a c)))
  = ((if yield_trap a c then 1 else 0)
     + (if payout_at_risk a c then 1 else 0))%nat.
Proof.
  rewrite run_checks_flags, !veto_flags_app, !length_app.
  rewrite check_dividend_yield_veto, check_payout_ratio_veto,
    check_dividend_growth_no_veto, check_interest_coverage_no_veto,
    check_debt_to_equity_no_veto, check_roic_roe_no_veto,
    check_valuation_no_veto, check_expected_return_no_veto.
  cbn [length]. lia.
Qed.
End Veto.

(** X2: Only two rules can veto a pass.  The verdict is true exactly when the
    score is at least 8, the yield is not in the yield-trap branch and the
    payout ratio is not in the dividend-at-risk branch; no other flag,
    whatever number it prints, holds "WARNING" or "AT RISK". *)
Theorem screen_stock_veto (a : StockAnalysis) (c : ScreeningCriteria) :
  exists r, screen_stock (Some a) c = Some r /\
    (passes_screen r = true <->
       8 <= score r /\ yield_trap a c = false /\ payout_at_risk a c = false).
Proof.
  destruct (screen_stock_some a c) as (r & Hr & Hsc & Hfl & Hp).
  exists r. split; [exact Hr|].
  rewrite Hp. unfold pass_verdict.
  rewrite andb_true_iff, Z.leb_le, Nat.eqb_eq, Hfl.
  change (List.filter disqualifying (t_flags (run_checks a c)))
    with (veto_flags (t_flags (run_checks a c))).
  rewrite run_checks_veto.
  destruct (yield_trap a c), (payout_at_risk a c); cbn; intuition congruence.
Qed.

(** *** The debt/equity flag and the sector *)

Lemma debt_flags_app (l1 l2 : list string) :
  debt_flags (l1 ++ l2) = (debt_flags l1 ++ debt_flags l2)%list.
Proof. apply List.filter_app. Qed.

Lemma run_checks_debt_flags (a : StockAnalysis) (c : ScreeningCriteria) :
  debt_flags (t_flags (run_checks a c))
  = debt_flags (t_flags (check_debt_to_equity a c tally0)).
Proof.
  rewrite run_checks_flags, !debt_flags_app.
  assert (E1 : debt_flags (t_flags (check_dividend_yield a c tally0)) = []).
  { unfold check_dividend_yield. split_ifs; reflexivity. }
  assert (E2 : debt_flags (t_flags (check_payout_ratio a c tally0)) = []).
  { unfold check_payout_ratio. split_ifs; reflexivity. }
  assert (E3 : debt_flags (t_flags (check_dividend_growth a tally0)) = []).
  { unfold check_dividend_growth. split_ifs; reflexivity. }
  assert (E4 : debt_flags (t_flags (check_interest_coverage a c tally0)) = []).
  { unfold check_interest_coverage. split_ifs; reflexivity. }
  assert (E6 : debt_flags (t_flags (check_roic_roe a c tally0)) = []).
  { unfold check_roic_roe. split_ifs; reflexivity. }
  assert (E7 : debt_flags (t_flags (check_valuation a c tally0)) = []).
  { unfold check_valuation. split_ifs; reflexivity. }
  assert (E8 : debt_flags (t_flags (check_expected_return a c tally0)) = []).
  { unfold check_expected_return. split_ifs; reflexivity. }
  rewrite E1, E2, E3, E4, E6, E7, E8. cbn [app]. now rewrite app_nil_r.
Qed.

(** X3: REITs, real-estate and utility companies are exempt from the
    debt/equity ceiling: whatever their debt/equity, no "High debt/equity"
    flag is raised and the check adds 1 point, or 2 below 0.5.  Elsewhere
    a debt/equity above the ceiling raises exactly that flag. *)
Theorem screen_stock_debt_exemption (a : StockAnalysis)
    (c : ScreeningCriteria) (de : float) :
  debt_to_equity a = Some de -> PrimFloat.eqb de 0 = false ->
  exists r, screen_stock (Some a) c = Some r /\
    (is_high_leverage_sector (sector a) = true ->
       debt_flags (flags r) = [] /\
       t_score (check_debt_to_equity a c tally0)
         = if lt de 0.5 then 2 else 1) /\
    (is_high_leverage_sector (sector a) = false ->
       gt de (max_debt_to_equity c) = true ->
       debt_flags (flags r) = ["High debt/equity: " ++ format_fixed 2 de] /\
       t_score (check_debt_to_equity a c tally0) = 0).
Proof.
  intros Hde Hnz.
  destruct (screen_stock_some a c) as (r & Hr & _ & Hfl & _).
  exists r. split; [exact Hr|].
  rewrite Hfl, run_checks_debt_flags.
  unfold check_debt_to_equity, truthy. rewrite Hde, Hnz. cbv zeta.
  split.
  - intros Hhl. rewrite Hhl. cbn [negb andb].
    destruct (lt de 0.5); split; reflexivity.
  - intros Hhl Hgt. rewrite Hhl, Hgt. split; reflexivity.
Qed.

Lemma screen_stock_debt_exemption_witness :
  exists r,
    screen_stock
      (Some (sample "REIT - Industrial" None None None None (Some 2.5%float)
               None None None None)) default_criteria = Some r /\
    debt_flags (flags r) = [].
Proof.
  destruct (screen_stock_debt_exemption
              (sample "REIT - Industrial" None None None None
                 (Some 2.5%float) None None None None)
              default_criteria 2.5 eq_refl eq_refl)
    as (r & Hr & Hhl & _).
  exists r. split; [exact Hr|]. apply Hhl. reflexivity.
Defined.

(** ** Further properties of the Metric Deriver *)

(** *** Unknown tickers *)

(** X5: For a provider whose numeric [info] fields hold numbers or are
    missing, as [Info] has them, a ticker yields an analysis exactly when
    the provider has an [info] record holding a [shortName]; the analysis
    then carries the ticker as given and that name, and comes unscreened:
    score 0, no flag, verdict false. *)
Theorem get_stock_data_found (pow : float -> float -> float)
    (ssum : list float -> float)
    (yf : string -> Stock) (t : string) :
  (get_stock_data pow ssum yf t = None <->
     info (yf t) = None \/
     exists inf, info (yf t) = Some inf /\ info_shortName inf = None) /\
  (forall a, get_stock_data pow ssum yf t = Some a ->
     (exists inf, info (yf t) = Some inf /\
        info_shortName inf = Some (name a)) /\
     ticker a = t /\ score a = 0 /\ flags a = [] /\ passes_screen a = false).
Proof.
  unfold get_stock_data. destruct (info (yf t)) as [inf|] eqn:Hinfo.
  - destruct (info_shortName inf) as [v|] eqn:Hname.
    + split.
      * split; [discriminate|]. intros [H|(inf' & H & Hnone)]; [discriminate|].
        injection H as <-. congruence.
      * intros a [= <-]. split; [|repeat split]. exists inf. eauto.
    + split.
      * split; [|reflexivity]. intros _. right. exists inf. auto.
      * intros a H. discriminate H.
  - split.
    + split; [auto | reflexivity].
    + intros a H. discriminate H.
Qed.

Lemma get_stock_data_found_witness :
  (exists a,
     get_stock_data sample_pow sample_sum (fun _ => sample_stock) "ACME"
     = Some a /\
     (exists inf, info sample_stock = Some inf /\
        info_shortName inf = Some (name a)) /\
     ticker a = "ACME" /\ score a = 0 /\ flags a = [] /\
     passes_screen a = false) /\
  get_stock_data sample_pow sample_sum sample_provider "NOPE" = None.
Proof.
  split.
  - destruct (get_stock_data_found sample_pow sample_sum
                (fun _ => sample_stock) "ACME") as [_ Hsome].
    eexists. split; [vm_compute; reflexivity|].
    apply (Hsome _ ltac:(vm_compute; reflexivity)).
  - apply (proj1 (get_stock_data_found sample_pow sample_sum
                    sample_provider "NOPE")).
    left. reflexivity.
Defined.

Lemma get_stock_data_inv (pow : float -> float -> float)
    (ssum : list float -> float)
    (yf : string -> Stock) (t : string) (a : StockAnalysis) :
  get_stock_data pow ssum yf t = Some a ->
  exists inf, info (yf t) = Some inf /\
    dividend_yield a = get_float inf "dividendYield" /\
    dividend_growth_5yr a = derive_dividend_growth_5yr pow ssum (yf t) /\
    interest_coverage a = derive_interest_coverage (yf t) /\
    expected_return a
      = derive_expected_return inf (get_float inf "dividendYield")
          (derive_dividend_growth_5yr pow ssum (yf t)).
Proof.
  unfold get_stock_data. destruct (info (yf t)) as [inf|]; [|discriminate].
  destruct (info_shortName inf); [|discriminate].
  intros [= <-]. exists inf. repeat split.
Qed.

(** *** Interest coverage is never negative *)

Lemma abs_not_negative (x : float) : lt (abs x) 0 = false.
Proof.
  unfold lt. rewrite ltb_spec, abs_spec.
  change (Prim2SF 0) with (S754_zero false).
  destruct (Prim2SF x) as [s|s| |s m e]; reflexivity.
Qed.

Lemma derive_interest_coverage_abs (stock : Stock) (ic : float) :
  derive_interest_coverage stock = Some ic ->
  exists e i, ic = abs (e / i)%float.
Proof.
  unfold derive_interest_coverage, loc_iloc0, try_or_absent, bind.
  destruct (financials stock) as [fin|]; [|discriminate].
  destruct (df_empty fin); [discriminate|]. cbn [negb].
  destruct (fin !! "EBIT") as [[|e es]|];
    destruct (fin !! "Interest Expense") as [[|i ies]|];
    try discriminate; cbn [truthy];
    try (destruct (PrimFloat.eqb e 0); discriminate);
    try (destruct (PrimFloat.eqb i 0); discriminate).
  destruct (PrimFloat.eqb e 0); [discriminate|].
  destruct (PrimFloat.eqb i 0) eqn:Hi; [discriminate|]. rewrite Hi.
  cbn [negb]. intros [= <-]. eauto.
Qed.

(** X6: The derived interest coverage is never below zero: the sign of EBIT
    and of the interest expense is dropped, so a loss (a negative EBIT)
    counts as much coverage as a profit of the same size. *)
Theorem interest_coverage_not_negative (pow : float -> float -> float)
    (ssum : list float -> float)
    (yf : string -> Stock) (t : string) (a : StockAnalysis) (ic : float) :
  get_stock_data pow ssum yf t = Some a ->
  interest_coverage a = Some ic ->
  lt ic 0 = false.
Proof.
  intros Ha Hic.
  destruct (get_stock_data_inv pow ssum yf t a Ha) as (inf & _ & _ & _ & Hd & _).
  rewrite Hd in Hic.
  destruct (derive_interest_coverage_abs _ _ Hic) as (e & i & ->).
  apply abs_not_negative.
Qed.

Lemma interest_coverage_not_negative_witness : lt 10 0 = false.
Proof.
  apply (interest_coverage_not_negative sample_pow sample_sum (fun _ => sample_stock)
           "ACME" _ 10 ltac:(vm_compute; reflexivity) eq_refl).
Defined.

(** *** Expected return *)

(** X7: The expected return is the dividend yield plus the five-year growth
    when both are present and not zero; with no usable growth it is the
    yield plus 100 times the provider's earnings growth; and it is absent
    whenever the yield is absent or zero, or neither growth figure is
    usable. *)
Theorem expected_return_cases (pow : float -> float -> float)
    (ssum : list float -> float)
    (yf : string -> Stock) (t : string) (a : StockAnalysis) :
  get_stock_data pow ssum yf t = Some a ->
  exists inf, info (yf t) = Some inf /\
    (truthy (dividend_yield a) = None -> expected_return a = None) /\
    (forall y g,
       truthy (dividend_yield a) = Some y ->
       truthy (dividend_growth_5yr a) = Some g ->
       expected_return a = Some (y + g)%float) /\
    (forall y eg,
       truthy (dividend_yield a) = Some y ->
       truthy (dividend_growth_5yr a) = None ->
       truthy (get_float inf "earningsGrowth") = Some eg ->
       expected_return a = Some (y + eg * 100)%float) /\
    (truthy (dividend_growth_5yr a) = None ->
     truthy (get_float inf "earningsGrowth") = None ->
     expected_return a = None).
Proof.
  intros Ha.
  destruct (get_stock_data_inv pow ssum yf t a Ha)
    as (inf & Hinfo & Hy & Hg & _ & Her).
  exists inf. split; [exact Hinfo|].
  rewrite Her, Hy, Hg. unfold derive_expected_return.
  split; [|split; [|split]].
  - intros ->. reflexivity.
  - intros y g -> ->. reflexivity.
  - intros y eg -> -> ->. reflexivity.
  - intros -> ->. destruct (truthy (get_float inf "dividendYield")); reflexivity.
Qed.

Lemma expected_return_cases_witness :
  (exists a,
     get_stock_data sample_pow sample_sum (fun _ => sample_stock) "ACME"
     = Some a /\
     expected_return a = None) /\
  (exists a g,
     get_stock_data sample_pow sample_sum (fun _ => sample_stock_growing)
       "ACME" = Some a /\
     dividend_growth_5yr a = Some g /\
     expected_return a = Some (2.5 + g)%float) /\
  (exists a,
     get_stock_data sample_pow sample_sum (fun _ => sample_stock_earnings)
       "ACME" = Some a /\
     dividend_growth_5yr a = None /\
     expected_return a = Some (2.5 + 0.25 * 100)%float) /\
  (exists a,
     get_stock_data sample_pow sample_sum (fun _ => sample_stock_quarterly)
       "ACME" = Some a /\
     dividend_yield a = Some 2.5%float /\
     expected_return a = None).
Proof.
  split; [|split; [|split]].
  - destruct (expected_return_cases sample_pow sample_sum
                (fun _ => sample_stock) "ACME" _
                ltac:(vm_compute; reflexivity))
      as (inf & _ & Hnone & _).
    eexists. split; [vm_compute; reflexivity|]. apply Hnone. reflexivity.
  - destruct (expected_return_cases sample_pow sample_sum
                (fun _ => sample_stock_growing) "ACME" _
                ltac:(vm_compute; reflexivity))
      as (inf & _ & _ & Hboth & _).
    eexists. eexists. split; [vm_compute; reflexivity|].
    split; [reflexivity|]. apply Hboth; reflexivity.
  - destruct (expected_return_cases sample_pow sample_sum
                (fun _ => sample_stock_earnings) "ACME" _
                ltac:(vm_compute; reflexivity))
      as (inf & Hinfo & _ & _ & Hearn & _).
    injection Hinfo as <-.
    eexists. split; [vm_compute; reflexivity|].
    split; [reflexivity|]. apply Hearn; reflexivity.
  - destruct (expected_return_cases sample_pow sample_sum
                (fun _ => sample_stock_quarterly) "ACME" _
                ltac:(vm_compute; reflexivity))
      as (inf & Hinfo & _ & _ & _ & Hneither).
    injection Hinfo as <-.
    eexists. split; [vm_compute; reflexivity|].
    split; [reflexivity|]. apply Hneither; reflexivity.
Defined.

(** *** History needed for the dividend growth *)

Lemma resample_YE_sum_length (ssum : list float -> float) (y0 : Z)
    (x0 : float) (rest : list (Z * float)) :
  length (resample_YE_sum ssum ((y0, x0) :: rest))
  = Z.to_nat (fst (List.last ((y0, x0) :: rest) (y0, 0%float)) - y0 + 1).
Proof. unfold resample_YE_sum. now rewrite length_map, length_seq. Qed.

(** X8: Dividend growth needs a history that reaches over five calendar
    years: when the last distribution is less than four years after the
    first one, the metric is absent, however many distributions there
    are. *)
Theorem dividend_growth_needs_five_years (pow : float -> float -> float)
    (ssum : list float -> float)
    (yf : string -> Stock) (t : string) (a : StockAnalysis)
    (y0 : Z) (x0 : float) (rest : list (Z * float)) :
  get_stock_data pow ssum yf t = Some a ->
  dividends (yf t) = Some ((y0, x0) :: rest) ->
  fst (List.last ((y0, x0) :: rest) (y0, 0%float)) - y0 < 4 ->
  dividend_growth_5yr a = None.
Proof.
  intros Ha Hdivs Hspan.
  destruct (get_stock_data_inv pow ssum yf t a Ha) as (inf & _ & _ & Hg & _).
  rewrite Hg.
  apply (derive_dividend_growth_short pow ssum _ _ Hdivs).
  rewrite resample_YE_sum_length. lia.
Qed.

Lemma dividend_growth_needs_five_years_witness :
  exists a,
    get_stock_data sample_pow sample_sum (fun _ => sample_stock_quarterly) "ACME"
      = Some a /\
    dividend_growth_5yr a = None.
Proof.
  eexists. split; [vm_compute; reflexivity|].
  eapply (dividend_growth_needs_five_years sample_pow sample_sum
            (fun _ => sample_stock_quarterly) "ACME");
    [vm_compute; reflexivity | reflexivity | vm_compute; reflexivity].
Defined.

(** ** Further properties of the watchlist files *)

(** *** Characters *)

Lemma is_space_sample_upper_char (ch : ascii) :
  is_space (sample_upper_char ch) = is_space ch.
Proof. destruct ch as [[] [] [] [] [] [] [] []]; reflexivity. Qed.

Lemma sample_upper_char_idem (ch : ascii) :
  sample_upper_char (sample_upper_char ch) = sample_upper_char ch.
Proof. destruct ch as [[] [] [] [] [] [] [] []]; reflexivity. Qed.

Lemma hash_sample_upper_char (ch : ascii) :
  Ascii.eqb "#" (sample_upper_char ch) = Ascii.eqb "#" ch.
Proof. destruct ch as [[] [] [] [] [] [] [] []]; reflexivity. Qed.

Lemma sample_upper_idem (s : string) :
  sample_upper (sample_upper s) = sample_upper s.
Proof.
  induction s as [|ch s IH]; cbn [sample_upper]; [reflexivity|].
  now rewrite sample_upper_char_idem, IH.
Qed.

Lemma no_space_sample_upper (s : string) :
  no_space (sample_upper s) = no_space s.
Proof.
  induction s as [|ch s IH]; cbn [sample_upper no_space]; [reflexivity|].
  now rewrite is_space_sample_upper_char, IH.
Qed.

Lemma startswith_nil (s : string) : startswith s "" = true.
Proof. destruct s; reflexivity. Qed.

Lemma plain_ticker_sample_upper (s : string) :
  plain_ticker (sample_upper s) = plain_ticker s.
Proof.
  unfold plain_ticker. rewrite no_space_sample_upper.
  destruct s as [|ch s]; [reflexivity|].
  cbn [sample_upper startswith String.eqb].
  now rewrite hash_sample_upper_char, !startswith_nil.
Qed.

Lemma sample_upper_keeps_plain : upper_keeps_plain sample_upper.
Proof. intros t Ht. now rewrite plain_ticker_sample_upper. Qed.

Lemma sample_upper_idempotent : upper_idempotent sample_upper.
Proof. exact sample_upper_idem. Qed.

(** *** Words of a line *)

Lemma lstrip_head (s : string) :
  lstrip s = "" \/
  exists ch s', lstrip s = String ch s' /\ is_space ch = false.
Proof.
  induction s as [|ch s IH]; [now left|].
  cbn [lstrip]. destruct (is_space ch) eqn:Hch; [exact IH|].
  right. eauto.
Qed.

Lemma strip_head (s : string) :
  strip s = "" \/
  exists ch s', strip s = String ch s' /\ is_space ch = false.
Proof.
  unfold strip. destruct (lstrip_head s) as [->|(ch & s' & -> & Hch)];
    [now left|].
  right. rewrite rstrip_cons, Hch. destruct (rstrip s'); eauto.
Qed.

Lemma split_blank (ch : ascii) (s : string) :
  is_space ch = true -> split (String ch s) = split s.
Proof.
  intros Hch.
  change (split (String ch s)) with
    (if is_space ch then split s
     else
       match s with
       | EmptyString => [String ch EmptyString]
       | String ch' _ =>
           if is_space ch' then String ch EmptyString :: split s
           else
             match split s with
             | w :: ws => String ch w :: ws
             | [] => [String ch EmptyString]
             end
       end).
  now rewrite Hch.
Qed.

Lemma split_words (s : string) : forallb is_word (split s) = true.
Proof.
  induction s as [|ch s IH]; [reflexivity|].
  destruct (is_space ch) eqn:Hch.
  - now rewrite (split_blank ch s Hch).
  - rewrite (split_cons ch s Hch).
    assert (Hone : is_word (String ch "") = true).
    { unfold is_word. cbn [no_space String.eqb]. now rewrite Hch. }
    destruct s as [|ch' s]; [cbn [forallb]; now rewrite Hone|].
    destruct (is_space ch').
    + cbn [forallb]. now rewrite Hone, IH.
    + destruct (split (String ch' s)) as [|w ws];
        [cbn [forallb]; now rewrite Hone|].
      cbn [forallb] in *. apply andb_true_iff in IH as [Hw Hws].
      rewrite Hws, andb_true_r. unfold is_word in *.
      cbn [no_space String.eqb]. rewrite Hch.
      apply andb_true_iff in Hw as [Hw _]. now rewrite Hw.
Qed.

Lemma split_head (ch : ascii) (s : string) :
  is_space ch = false ->
  exists w ws, split (String ch s) = String ch w :: ws.
Proof.
  intros Hch. rewrite (split_cons ch s Hch).
  destruct s as [|ch' s]; [eauto|].
  destruct (is_space ch'); [eauto|].
  destruct (split (String ch' s)); eauto.
Qed.

(** *** Loading never fails on the content *)

Lemma load_lines_total (upper : string -> string)
    (lines acc : list string) :
  exists words,
    load_lines upper lines acc = Ok (acc ++ List.map upper words)%list /\
    forallb plain_ticker words = true.
Proof.
  revert acc. induction lines as [|line lines IH]; intros acc.
  - exists []. cbn. now rewrite app_nil_r.
  - cbn [load_lines].
    destruct (strip_head line) as [->|(ch & s' & -> & Hch)].
    + cbn [String.eqb negb andb]. apply IH.
    + cbn [String.eqb negb andb startswith]. rewrite startswith_nil, andb_true_r.
      destruct (Ascii.eqb "#" ch) eqn:Hhash; cbn [negb]; [apply IH|].
      pose proof (split_words (String ch s')) as Hwords.
      destruct (split_head ch s' Hch) as (w & ws & Hsplit).
      rewrite Hsplit in Hwords |- *.
      cbn [forallb] in Hwords. apply andb_true_iff in Hwords as [Hw _].
      unfold is_word in Hw. apply andb_true_iff in Hw as [Hns _].
      destruct (IH (acc ++ [upper (String ch w)])%list)
        as (words & Hload & Hplain).
      exists (String ch w :: words). rewrite Hload.
      split; [now rewrite <- app_assoc|].
      cbn [forallb]. rewrite Hplain, andb_true_r. unfold plain_ticker.
      cbn [String.eqb startswith negb]. rewrite Hns, startswith_nil, Hhash.
      reflexivity.
Qed.

Lemma map_upper_plain (upper : string -> string) (words : list string) :
  upper_keeps_plain upper -> upper_idempotent upper ->
  forallb plain_ticker words = true ->
  forallb plain_ticker (List.map upper words) = true /\
  List.map upper (List.map upper words) = List.map upper words.
Proof.
  intros Hplain Hidem. induction words as [|t ts IH];
    cbn [List.map forallb]; [split; reflexivity|].
  intros [Ht Hts]%andb_true_iff. destruct (IH Hts) as [IH1 IH2].
  now rewrite (Hplain t Ht), IH1, Hidem, IH2.
Qed.

Lemma load_watchlist_returns_words (upper : string -> string)
    (filename : string) (w : World) (tickers : list string) :
  fst (load_watchlist upper filename w) = Return tickers ->
  exists words, tickers = List.map upper words /\
    forallb plain_ticker words = true.
Proof.
  unfold load_watchlist.
  destruct (files w !! filename) as [[content|]|]; [| |discriminate];
    destruct (bool_decide (filename ∈ unreadable w)); try discriminate.
  destruct (load_lines_total upper (readlines (universal_newlines content))
              []) as (words & -> & Hplain).
  cbn [fst app]. intros [= <-]. eauto.
Qed.

Lemma load_watchlist_returns_plain (upper : string -> string)
    (filename : string) (w : World) (tickers : list string) :
  upper_keeps_plain upper -> upper_idempotent upper ->
  fst (load_watchlist upper filename w) = Return tickers ->
  forallb plain_ticker tickers = true /\ List.map upper tickers = tickers.
Proof.
  intros Hplain Hidem Hload.
  destruct (load_watchlist_returns_words upper filename w tickers Hload)
    as (words & -> & Hwords).
  exact (map_upper_plain upper words Hplain Hidem Hwords).
Qed.





(** *** Saving what was loaded *)

(** X11: When the upper case of a non-empty word without whitespace that
    does not start with [#] is again such a word, and [str.upper] leaves
    its own results as they are, a list that was loaded from a watchlist
    file survives a save and a reload unchanged: if the save returns and
    the new file can be opened for reading, loading it gives the same
    tickers, in the same order and spelling. *)
Theorem reload_saved_watchlist (upper : string -> string)
    (filename filename' : string) (w w' w'' : World)
    (tickers : list string) :
  upper_keeps_plain upper -> upper_idempotent upper ->
  fst (load_watchlist upper filename w) = Return tickers ->
  save_watchlist tickers filename' w' = (Return tt, w'') ->
  filename' ∉ unreadable w'' ->
  fst (load_watchlist upper filename' w'') = Return tickers.
Proof.
  intros Hkeeps Hidem Hload Hsave Hread.
  destruct (load_watchlist_returns_plain upper filename w tickers
              Hkeeps Hidem Hload) as [Hplain Hupper].
  rewrite (load_after_save upper tickers filename' w' w'' Hplain Hsave
             Hread).
  now rewrite Hupper.
Qed.

Lemma reload_saved_watchlist_witness :
  fst (load_watchlist sample_upper "copy.txt"
         (snd (save_watchlist ["JNJ"; "PG"; "MSFT"] "copy.txt" sample_world)))
  = Return ["JNJ"; "PG"; "MSFT"].
Proof.
  apply (reload_saved_watchlist sample_upper "stocks.txt" "copy.txt"
           sample_world_with_list sample_world).
  - exact sample_upper_keeps_plain.
  - exact sample_upper_idempotent.
  - vm_compute. reflexivity.
  - reflexivity.
  - vm_compute. discriminate.
Defined.

(** *** Indentation and trailing text on a line *)

Lemma lstrip_blank (indent s : string) :
  blank indent = true -> lstrip (indent ++ s) = lstrip s.
Proof.
  induction indent as [|ch indent IH]; [reflexivity|].
  cbn [blank]. intros [Hch Hrest]%andb_true_iff.
  change (String ch indent ++ s) with (String ch (indent ++ s)).
  cbn [lstrip]. now rewrite Hch, (IH Hrest).
Qed.

Lemma rstrip_after_word (t u : string) :
  is_word t = true -> rstrip (t ++ u) = t ++ rstrip u.
Proof.
  unfold is_word. induction t as [|ch t IH]; [discriminate|].
  cbn [no_space]. intros [[Hch Ht]%andb_true_iff _]%andb_true_iff.
  apply negb_true_iff in Hch.
  change (String ch t ++ u) with (String ch (t ++ u)).
  change (String ch t ++ rstrip u) with (String ch (t ++ rstrip u)).
  rewrite rstrip_cons. destruct t as [|ch' t].
  - change ("" ++ u) with u. change ("" ++ rstrip u) with (rstrip u).
    rewrite Hch. destruct (rstrip u); reflexivity.
  - rewrite IH by (rewrite Ht; reflexivity).
    reflexivity.
Qed.

Lemma split_after_word (t u : string) :
  is_word t = true -> startswith_blank u = true ->
  split (t ++ u) = t :: split u.
Proof.
  unfold is_word. induction t as [|ch t IH]; [discriminate|].
  cbn [no_space]. intros [[Hch Ht]%andb_true_iff _]%andb_true_iff Hu.
  apply negb_true_iff in Hch.
  change (String ch t ++ u) with (String ch (t ++ u)).
  rewrite (split_cons ch _ Hch). destruct t as [|ch' t].
  - change ("" ++ u) with u. destruct u as [|sp u]; [reflexivity|].
    cbn [startswith_blank] in Hu. now rewrite Hu.
  - change (String ch' t ++ u) with (String ch' (t ++ u)).
    pose proof Ht as Hall. cbn [no_space] in Ht.
    apply andb_true_iff in Ht as [Hch' _]. apply negb_true_iff in Hch'.
    rewrite Hch'.
    change (String ch' (t ++ u)) with (String ch' t ++ u).
    rewrite IH by (rewrite ?Hall; auto). reflexivity.
Qed.

(** X12: Of a line only the first word counts: the whitespace before the
    ticker and whatever follows the first whitespace character after it
    are dropped, and the ticker is put in upper case. *)
Theorem load_lines_first_word (upper : string -> string)
    (indent t rest : string) (sp : ascii) (lines acc : list string) :
  blank indent = true -> plain_ticker t = true -> is_space sp = true ->
  load_lines upper ((indent ++ t ++ String sp rest) :: lines) acc
  = load_lines upper lines (acc ++ [upper t])%list.
Proof.
  intros Hind Ht Hsp. unfold plain_ticker in Ht.
  apply andb_true_iff in Ht as [[Hne Hns]%andb_true_iff Hhash].
  assert (Hword : is_word t = true) by (unfold is_word; now rewrite Hns, Hne).
  cbn [load_lines]. unfold strip. rewrite (lstrip_blank _ _ Hind).
  destruct t as [|ch t]; [discriminate Hne|].
  pose proof Hns as Hns'. cbn [no_space] in Hns'.
  apply andb_true_iff in Hns' as [Hch _]. apply negb_true_iff in Hch.
  change (String ch t ++ String sp rest)
    with (String ch (t ++ String sp rest)).
  change (lstrip (String ch (t ++ String sp rest)))
    with (if is_space ch then lstrip (t ++ String sp rest)
          else String ch (t ++ String sp rest)).
  rewrite Hch.
  change (String ch (t ++ String sp rest))
    with (String ch t ++ String sp rest).
  rewrite (rstrip_after_word _ _ Hword).
  assert (Htail : startswith_blank (rstrip (String sp rest)) = true).
  { rewrite rstrip_cons, Hsp. destruct (rstrip rest); cbn; [reflexivity|].
    exact Hsp. }
  rewrite (split_after_word _ _ Hword Htail).
  change (String ch t ++ rstrip (String sp rest))
    with (String ch (t ++ rstrip (String sp rest))).
  cbn [String.eqb negb andb startswith] in Hhash |- *.
  rewrite startswith_nil in Hhash |- *. now rewrite Hhash.
Qed.

Lemma load_lines_first_word_witness :
  load_lines sample_upper ["  pg   # Procter"; "ko"] ["JNJ"]
  = load_lines sample_upper ["ko"] ["JNJ"; "PG"].
Proof.
  apply (load_lines_first_word sample_upper "  " "pg" "  # Procter" " "
           ["ko"] ["JNJ"]);
    reflexivity.
Defined.

(** ** Properties of the reports *)

Lemma string_of_N_head (n : Z) :
  exists ch r, string_of_N n = String ch r.
Proof.
  unfold string_of_N, NilZero.string_of_uint.
  destruct (N.to_uint (Z.to_N n)); cbn [NilEmpty.string_of_uint]; eauto.
Qed.

Lemma format_fixed_head (d : nat) (x : float) :
  exists ch r, format_fixed d x = String ch r.
Proof.
  assert (Hdigits : forall s n, exists ch r,
             sign_prefix s ++ fixed_digits d n = String ch r).
  { intros s n. destruct s; cbn [sign_prefix]; [eauto|].
    unfold fixed_digits.
    destruct (string_of_N_head (n / 10 ^ Z.of_nat d)) as (ch & r & ->).
    eauto. }
  unfold format_fixed. destruct (Prim2SF x) as [s|s| |s m e]; eauto.
  destruct s; cbn [sign_prefix]; eauto.
Qed.

(** X13: "N/A" stands for a missing value and for nothing else: a value that
    is present, be it zero, NaN or infinite, is never shown as "N/A",
    whatever the suffix and the number of decimals. *)
Theorem format_value_na (value : option float) (suffix : string)
    (decimal : nat) :
  format_value value suffix decimal = "N/A" <-> value = None.
Proof.
  split; [|intros ->; reflexivity].
  destruct value as [x|]; [|reflexivity]. unfold format_value. intros H.
  pose proof (free_of_format_fixed "N" decimal x eq_refl eq_refl) as Hfree.
  destruct (format_fixed_head decimal x) as (ch & r & Hfmt).
  rewrite Hfmt in H, Hfree. cbn [free_of] in Hfree.
  apply andb_true_iff in Hfree as [Hch _]. apply negb_true_iff in Hch.
  change (String ch r ++ suffix) with (String ch (r ++ suffix)) in H.
  injection H as -> _. discriminate Hch.
Qed.

(** ** Properties of [screen_stocks] *)

Section ScreenStocksFacts.
Variable pow : float -> float -> float.
Variable ssum : list float -> float.
Variable yf : string -> Stock.
Variable c : ScreeningCriteria.
Variable verbose : bool.

Lemma screen_each_rows (tickers : list string) (results : list Row)
    (w : World) :
  fst (screen_each pow ssum yf tickers c verbose results w)
  = (results ++ omap (screened_row pow ssum yf c) tickers)%list.
Proof.
  revert results w. induction tickers as [|t tickers IH]; intros results w.
  - cbn. now rewrite app_nil_r.
  - cbn [screen_each].
    change (omap (screened_row pow ssum yf c) (t :: tickers))
      with (match screened_row pow ssum yf c t with
            | Some row => row :: omap (screened_row pow ssum yf c) tickers
            | None => omap (screened_row pow ssum yf c) tickers
            end).
    unfold screened_row at 1.
    destruct (get_stock_data pow ssum yf t) as [a|]; [|apply IH].
    destruct (screen_stock_some a c) as (r & Hr & _). rewrite Hr.
    rewrite IH. now rewrite <- app_assoc.
Qed.

Lemma screened_row_ticker (t : string) (row : Row) :
  screened_row pow ssum yf c t = Some row ->
  row_ticker row = t /\
  exists a r, get_stock_data pow ssum yf t = Some a /\
    screen_stock (Some a) c = Some r /\ row = result_row r.
Proof.
  unfold screened_row. destruct (get_stock_data pow ssum yf t) as [a|] eqn:Ha;
    [|discriminate].
  destruct (screen_stock_some a c) as (r & Hr & _). rewrite Hr.
  intros [= <-]. split; [|eauto].
  destruct (get_stock_data_inv pow ssum yf t a Ha) as (inf & Hinfo & _).
  unfold get_stock_data in Ha. rewrite Hinfo in Ha.
  destruct (info_shortName inf); [|discriminate]. injection Ha as <-.
  unfold screen_stock in Hr. injection Hr as <-. reflexivity.
Qed.

Lemma omap_screened_tickers (tickers : list string) :
  List.map row_ticker (omap (screened_row pow ssum yf c) tickers)
  = List.filter (found pow ssum yf) tickers.
Proof.
  induction tickers as [|t tickers IH]; [reflexivity|].
  change (omap (screened_row pow ssum yf c) (t :: tickers))
    with (match screened_row pow ssum yf c t with
          | Some row => row :: omap (screened_row pow ssum yf c) tickers
          | None => omap (screened_row pow ssum yf c) tickers
          end).
  cbn [List.filter]. unfold found at 1.
  destruct (screened_row pow ssum yf c t) as [row|] eqn:Hrow.
  - destruct (screened_row_ticker t row Hrow) as (Ht & a & r & -> & _).
    cbn [List.map]. now rewrite Ht, IH.
  - unfold screened_row in Hrow.
    destruct (get_stock_data pow ssum yf t) as [a|]; [|exact IH].
    destruct (screen_stock_some a c) as (r & Hr & _). rewrite Hr in Hrow.
    discriminate Hrow.
Qed.

Lemma screen_stocks_permutation (tickers : list string) (w : World) :
  fst (screen_stocks pow ssum yf tickers (Some c) verbose w)
  ≡ₚ pd_DataFrame (omap (screened_row pow ssum yf c) tickers).
Proof.
  unfold screen_stocks. change (default default_criteria (Some c)) with c.
  pose proof (screen_each_rows tickers [] w) as Hrows.
  destruct (screen_each pow ssum yf tickers c verbose [] w) as [results w'].
  cbn [fst app] in Hrows |- *. subst results.
  destruct (pd_DataFrame (omap (screened_row pow ssum yf c) tickers));
    [reflexivity|].
  apply merge_sort_Permutation.
Qed.
End ScreenStocksFacts.

Lemma pd_DataFrame_tickers (results : list Row) :
  List.map row_ticker (pd_DataFrame results) = List.map row_ticker results.
Proof. unfold pd_DataFrame. rewrite List.map_map. reflexivity. Qed.

Lemma column_cell_holds (column : Row -> option float)
    (results : list Row) (r : Row) :
  cell_holds (column r) (column_cell column results r).
Proof.
  unfold cell_holds, column_cell. destruct (column r); [reflexivity|].
  destruct (has_number column results); auto.
Qed.

(** X14: The table has one row for every ticker the provider knows and none
    for the others: its tickers are the known ones among the input,
    rearranged.  Each row holds, for the analysis that [screen_stock]
    gives for its ticker, the ticker, name, sector, score and verdict,
    the flags joined by semicolons, and in each metric column the metric
    where the analysis has one and a missing value ([None] or NaN)
    where it has none.  A ticker given twice gets two rows. *)
Theorem screen_stocks_rows (pow : float -> float -> float)
    (ssum : list float -> float)
    (yf : string -> Stock) (criteria : option ScreeningCriteria)
    (verbose : bool) (tickers : list string) (w : World) :
  let c := default default_criteria criteria in
  let df := fst (screen_stocks pow ssum yf tickers criteria verbose w) in
  List.map row_ticker df ≡ₚ List.filter (found pow ssum yf) tickers /\
  length df = length (List.filter (found pow ssum yf) tickers) /\
  forall row, In row df ->
    exists a r, get_stock_data pow ssum yf (row_ticker row) = Some a /\
      screen_stock (Some a) c = Some r /\
      row_ticker row = ticker r /\
      row_name row = name r /\
      row_sector row = sector r /\
      row_score row = score r /\
      row_pass row = passes_screen r /\
      row_flags row = join "; " (flags r) /\
      cell_holds (dividend_yield r) (row_div_yield row) /\
      cell_holds (payout_ratio r) (row_payout_ratio row) /\
      cell_holds (dividend_growth_5yr r) (row_div_growth_5y row) /\
      cell_holds (interest_coverage r) (row_interest_cov row) /\
      cell_holds (debt_to_equity r) (row_debt_equity row) /\
      cell_holds (roic r) (row_roic row) /\
      cell_holds (roe r) (row_roe row) /\
      cell_holds (pe_ratio r) (row_pe row) /\
      cell_holds (expected_return r) (row_expected_return row).
Proof.
  intros c df.
  assert (Hperm : df ≡ₚ pd_DataFrame
                          (omap (screened_row pow ssum yf c) tickers)).
  { subst df c. destruct criteria as [c|].
    - apply screen_stocks_permutation.
    - apply (screen_stocks_permutation pow ssum yf default_criteria). }
  assert (Htick : List.map row_ticker df
                  ≡ₚ List.filter (found pow ssum yf) tickers).
  { rewrite <- omap_screened_tickers with (c := c).
    rewrite <- (pd_DataFrame_tickers (omap (screened_row pow ssum yf c)
                                        tickers)).
    now apply Permutation_map. }
  split; [exact Htick|]. split.
  - rewrite <- (length_map row_ticker df). now apply Permutation_length.
  - intros row Hin.
    apply (Permutation_in _ Hperm) in Hin.
    unfold pd_DataFrame in Hin. apply List.in_map_iff in Hin
      as (row0 & <- & Hin).
    apply list_elem_of_In, list_elem_of_omap in Hin as (t & _ & Hrow).
    destruct (screened_row_ticker pow ssum yf c t row0 Hrow)
      as (<- & a & r & Ha & Hr & ->).
    exists a, r. split; [exact Ha|]. split; [exact Hr|].
    repeat split;
      try exact (column_cell_holds _ (omap (screened_row pow ssum yf c)
                                        tickers) (result_row r)).
    cbn. now destruct (flags r).
Qed.

#[local] Instance score_before_total : Total score_before.
Proof. intros r1 r2. unfold score_before. lia. Qed.

#[local] Instance score_before_trans : Transitive score_before.
Proof. intros r1 r2 r3. unfold score_before. lia. Qed.

(** X15: The table is sorted by falling score: no row has a higher score than
    a row above it, so the first row holds the best score of the run. *)
Theorem screen_stocks_sorted (pow : float -> float -> float)
    (ssum : list float -> float)
    (yf : string -> Stock) (criteria : option ScreeningCriteria)
    (verbose : bool) (tickers : list string) (w : World) :
  let df := fst (screen_stocks pow ssum yf tickers criteria verbose w) in
  StronglySorted score_before df /\
  forall top rest row, df = top :: rest -> In row rest ->
    row_score row <= row_score top.
Proof.
  intros df.
  assert (Hsorted : StronglySorted score_before df).
  { subst df. unfold screen_stocks.
    destruct (screen_each pow ssum yf tickers (default default_criteria criteria)
                verbose [] w) as [results w'].
    cbn [fst].
    destruct (pd_DataFrame results) as [|row rows]; [constructor|].
    apply StronglySorted_merge_sort; apply _. }
  split; [exact Hsorted|].
  intros top rest row Hdf Hin. rewrite Hdf in Hsorted.
  apply StronglySorted_inv in Hsorted as [_ Hall].
  rewrite List.Forall_forall in Hall. exact (Hall row Hin).
Qed.

Lemma screen_stocks_rows_witness :
  List.map row_ticker
    (fst (screen_stocks sample_pow sample_sum sample_provider
            ["ACME"; "NOPE"; "QRT"] (Some default_criteria) false
            sample_world))
  ≡ₚ ["ACME"; "QRT"] /\
  length (fst (screen_stocks sample_pow sample_sum sample_provider
                 ["ACME"; "NOPE"; "QRT"] (Some default_criteria) false
                 sample_world)) = 2%nat /\
  forall row,
    In row (fst (screen_stocks sample_pow sample_sum sample_provider
                   ["ACME"; "NOPE"; "QRT"] (Some default_criteria) false
                   sample_world)) ->
    exists a r,
      get_stock_data sample_pow sample_sum sample_provider (row_ticker row)
      = Some a /\
      screen_stock (Some a) default_criteria = Some r /\
      row_name row = name r /\ row_score row = score r /\
      row_flags row = join "; " (flags r) /\
      cell_holds (dividend_yield r) (row_div_yield row) /\
      cell_holds (roic r) (row_roic row).
Proof.
  destruct (screen_stocks_rows sample_pow sample_sum sample_provider
              (Some default_criteria) false ["ACME"; "NOPE"; "QRT"]
              sample_world) as (Htickers & Hlength & Hrows).
  split; [exact Htickers|]. split; [exact Hlength|].
  intros row Hin.
  destruct (Hrows row Hin)
    as (a & r & Ha & Hr & _ & Hname & _ & Hscore & _ & Hflags & Hyield & _
        & _ & _ & _ & Hroic & _).
  exists a, r. repeat split; assumption.
Defined.

(** ** Properties of the command line *)

(** Without [--watchlist], the tickers chosen from plain arguments or
    from a preset are plain and in upper case. *)
Lemma select_tickers_plain (upper : string -> string) (args : Args)
    (w w1 : World) (tickers : list string) :
  upper_keeps_plain upper -> upper_idempotent upper ->
  List.map upper DIVIDEND_ARISTOCRATS = DIVIDEND_ARISTOCRATS ->
  List.map upper DIVIDEND_KINGS = DIVIDEND_KINGS ->
  truthy_str (args_watchlist args) = None ->
  forallb plain_ticker (args_tickers args) = true ->
  select_tickers upper args w = (Return tickers, w1) ->
  forallb plain_ticker tickers = true /\ List.map upper tickers = tickers.
Proof.
  intros Hkeeps Hidem Harist Hkings Hwl Hplain. unfold select_tickers.
  rewrite Hwl.
  destruct (args_tickers args) as [|t ts] eqn:Hts.
  - destruct (args_kings args);
      [intros [= <- _]; split; [reflexivity | exact Hkings]|].
    destruct (args_aristocrats args); intros [= <- _]; split;
      first [reflexivity | exact Harist].
  - intros [= <- _].
    exact (map_upper_plain upper (t :: ts) Hkeeps Hidem Hplain).
Qed.

(** X17: A run that saves its tickers with [--save-watchlist] can be repeated
    from that file: when the save returns and the file can be opened for
    reading, a later run with [--watchlist] on the saved file screens
    the same tickers in the same order, whether the first run took them
    from plain arguments (non-empty, without whitespace, not starting
    with [#]) or from a preset list.  This is for a [str.upper] under
    which the upper case of such a ticker is again such a ticker, and
    which leaves its own results and the preset lists as they are. *)
Theorem cli_saved_watchlist_reloads (upper : string -> string)
    (args args' : Args) (w w1 w2 w3 : World) (tickers : list string)
    (filename : string) :
  upper_keeps_plain upper -> upper_idempotent upper ->
  List.map upper DIVIDEND_ARISTOCRATS = DIVIDEND_ARISTOCRATS ->
  List.map upper DIVIDEND_KINGS = DIVIDEND_KINGS ->
  truthy_str (args_watchlist args) = None ->
  forallb plain_ticker (args_tickers args) = true ->
  select_tickers upper args w = (Return tickers, w1) ->
  truthy_str (args_save_watchlist args) = Some filename ->
  save_if_requested args tickers w2 = (Return tt, w3) ->
  filename ∉ unreadable w3 ->
  args_watchlist args' = Some filename ->
  fst (select_tickers upper args' w3) = Return tickers.
Proof.
  intros Hkeeps Hidem Harist Hkings Hwl Hplain Hsel Hsave Hsaved Hread Hwl'.
  destruct (select_tickers_plain upper args w w1 tickers Hkeeps Hidem
              Harist Hkings Hwl Hplain Hsel) as [Hplain' Hupper].
  unfold save_if_requested in Hsaved. rewrite Hsave in Hsaved.
  pose proof (load_after_save upper tickers filename w2 w3 Hplain' Hsaved
                Hread) as Hload.
  rewrite Hupper in Hload.
  unfold select_tickers. rewrite Hwl'.
  assert (Hname : truthy_str (Some filename) = Some filename).
  { unfold truthy_str in Hsave |- *.
    destruct (args_save_watchlist args) as [s|]; [|discriminate].
    destruct (String.eqb s "") eqn:Hs; [discriminate|].
    injection Hsave as ->. now rewrite Hs. }
  rewrite Hname.
  destruct (load_watchlist upper filename w3) as [o w4].
  cbn [fst] in Hload. subst o. reflexivity.
Qed.

Lemma cli_saved_watchlist_reloads_witness :
  fst (select_tickers sample_upper sample_args sample_world)
  = Return ["JNJ"; "KO"] /\
  fst (select_tickers sample_upper sample_args_reload
         (snd (save_if_requested sample_args ["JNJ"; "KO"] sample_world)))
  = Return ["JNJ"; "KO"].
Proof.
  split; [reflexivity|].
  apply (cli_saved_watchlist_reloads sample_upper sample_args
           sample_args_reload sample_world sample_world sample_world _
           ["JNJ"; "KO"] "mine.txt");
    try reflexivity.
  - exact sample_upper_keeps_plain.
  - exact sample_upper_idempotent.
  - vm_compute. discriminate.
Defined.

(** *** Tickers typed in the interactive mode *)

Lemma split_sample_upper (s : string) :
  split (sample_upper s) = List.map sample_upper (split s).
Proof.
  induction s as [|ch s IH]; [reflexivity|].
  change (sample_upper (String ch s))
    with (String (sample_upper_char ch) (sample_upper s)).
  destruct (is_space ch) eqn:Hch.
  - rewrite (split_blank ch s Hch), split_blank
      by now rewrite is_space_sample_upper_char.
    exact IH.
  - rewrite (split_cons ch s Hch), split_cons
      by now rewrite is_space_sample_upper_char.
    destruct s as [|ch' s]; [reflexivity|].
    change (sample_upper (String ch' s))
      with (String (sample_upper_char ch') (sample_upper s)) in IH |- *.
    cbv beta match. rewrite is_space_sample_upper_char.
    destruct (is_space ch').
    + now rewrite IH.
    + rewrite IH. destruct (split (String ch' s)); reflexivity.
Qed.

Lemma sample_upper_by_word : upper_by_word sample_upper.
Proof. split; [reflexivity | exact split_sample_upper]. Qed.

Lemma map_upper_idem (upper : string -> string) (words : list string) :
  upper_idempotent upper ->
  List.map upper (List.map upper words) = List.map upper words.
Proof.
  intros Hidem. induction words as [|t ts IH]; cbn [List.map];
    [reflexivity|].
  now rewrite Hidem, IH.
Qed.

(** X18: What is typed at the "Tickers:" prompt is cut at every run of
    whitespace and put in upper case.  When [str.upper] works word by
    word and leaves its own results as they are: an answer of
    whitespace only gives no list and ends the program; any other
    answer gives a list that is not empty, of the typed words in upper
    case, each a non-empty word without whitespace that is in upper
    case. *)
Theorem parse_ticker_input_words (upper : string -> string)
    (typed : string) :
  upper_by_word upper -> upper_idempotent upper ->
  (parse_ticker_input upper typed = None <-> strip typed = "") /\
  (forall tickers, parse_ticker_input upper typed = Some tickers ->
     tickers <> [] /\ forallb is_word tickers = true /\
     tickers = List.map upper (split (strip typed)) /\
     List.map upper tickers = tickers).
Proof.
  intros [Hnil Hwords] Hidem. unfold parse_ticker_input. cbv zeta.
  destruct (strip_head typed) as [Hs|(ch & s' & Hs & Hch)].
  - rewrite Hs, Hnil. cbn [String.eqb].
    split; [split; reflexivity|]. intros tickers H. discriminate H.
  - rewrite Hs. destruct (split_head ch s' Hch) as (word & ws & Hsplit).
    assert (Hup : split (upper (String ch s'))
                  = upper (String ch word) :: List.map upper ws).
    { now rewrite Hwords, Hsplit. }
    destruct (String.eqb_spec (upper (String ch s')) "") as [He|_].
    { rewrite He in Hup. discriminate Hup. }
    split; [split; discriminate|].
    intros tickers H. injection H as <-. split; [|split; [|split]].
    + rewrite Hup. discriminate.
    + apply split_words.
    + apply Hwords.
    + rewrite Hwords. now apply map_upper_idem.
Qed.

Lemma parse_ticker_input_words_witness :
  parse_ticker_input sample_upper "  jnj pg   ko " = Some ["JNJ"; "PG"; "KO"] /\
  ["JNJ"; "PG"; "KO"] <> [] /\
  forallb is_word ["JNJ"; "PG"; "KO"] = true /\
  ["JNJ"; "PG"; "KO"]
    = List.map sample_upper (split (strip "  jnj pg   ko ")) /\
  List.map sample_upper ["JNJ"; "PG"; "KO"] = ["JNJ"; "PG"; "KO"].
Proof.
  split; [reflexivity|].
  apply (proj2 (parse_ticker_input_words sample_upper "  jnj pg   ko "
                  sample_upper_by_word sample_upper_idempotent)).
  reflexivity.
Defined.

(** ** What the functions leave alone *)

Lemma print_all_files (lines : list string) (w : World) :
  files (print_all lines w) = files w /\
  unwritable (print_all lines w) = unwritable w.
Proof.
  unfold print_all. revert w.
  induction lines as [|line lines IH]; intros w; [split; reflexivity|].
  cbn [fold_left]. destruct (IH (print line w)) as [-> ->]. split; reflexivity.
Qed.

Lemma print_analysis_files (a : StockAnalysis) (verbose : bool)
    (w : World) :
  files (print_analysis a verbose w) = files w /\
  unwritable (print_analysis a verbose w) = unwritable w.
Proof.
  unfold print_analysis. cbv zeta.
  destruct (flags a) as [|f fl]; destruct verbose;
    repeat match goal with
           | |- context [print_all ?l ?w0] =>
               destruct (print_all_files l w0) as [-> ->]
           end; split; reflexivity.
Qed.

Lemma screen_each_files (pow : float -> float -> float)
    (ssum : list float -> float)
    (yf : string -> Stock) (tickers : list string) (c : ScreeningCriteria)
    (verbose : bool) (results : list Row) (w : World) :
  files (snd (screen_each pow ssum yf tickers c verbose results w)) = files w /\
  unwritable (snd (screen_each pow ssum yf tickers c verbose results w))
  = unwritable w.
Proof.
  revert results w. induction tickers as [|t tickers IH]; intros results w;
    [split; reflexivity|].
  cbn [screen_each].
  destruct (get_stock_data pow ssum yf t) as [a|].
  - destruct (screen_stock_some a c) as (r & Hr & _). rewrite Hr.
    destruct (IH (results ++ [result_row r])%list
                (print_analysis r verbose
                   (print_end ("Analyzing " ++ t ++ "...") " " w)))
      as [-> ->].
    destruct (print_analysis_files r verbose
                (print_end ("Analyzing " ++ t ++ "...") " " w)) as [-> ->].
    split; reflexivity.
  - destruct (IH results
                (print "Failed"
                   (print_end ("Analyzing " ++ t ++ "...") " " w)))
      as [-> ->].
    split; reflexivity.
Qed.

(** X16: Screening reads and prints only: whatever the tickers and whatever
    the provider answers, [screen_stocks] leaves every file as it was. *)
Theorem screen_stocks_keeps_files (pow : float -> float -> float)
    (ssum : list float -> float)
    (yf : string -> Stock) (tickers : list string)
    (criteria : option ScreeningCriteria) (verbose : bool) (w : World) :
  files (snd (screen_stocks pow ssum yf tickers criteria verbose w)) = files w /\
  unwritable (snd (screen_stocks pow ssum yf tickers criteria verbose w))
  = unwritable w.
Proof.
  unfold screen_stocks.
  pose proof (screen_each_files pow ssum yf tickers
                (default default_criteria criteria) verbose [] w) as H.
  destruct (screen_each pow ssum yf tickers (default default_criteria criteria)
              verbose [] w) as [results w'].
  exact H.
Qed.





